(** * Python_consensus: paginated fetch, flattening and summary projection

    A shallow embedding of [api_client.py] (the transport
    [get_consensus_data_with_pagination] and the paginator
    [get_all_consensus_data]), of [data_processor.py] (the row expansion
    loop of [process_data], the cleaning pass [_clean_consensus_data] with
    the pandas calls it is made of, and the projector [create_summary_csv])
    and of [main.py], with the properties of the specification stated and
    settled against it. *)

From Stdlib Require Import ZArith List String Ascii Bool Arith Lia.
From Stdlib Require Import DecimalString DecimalZ.
Import ListNotations.

Local Open Scope string_scope.
Local Open Scope list_scope.

(** ** Python values

    The program only handles values that come out of [response.json()]:
    [None], booleans, numbers, strings, lists and dicts. Numbers are the
    integers (the only numbers the code computes with are page numbers);
    a dict is the list of its bindings in insertion order, keys distinct. *)

#[warnings="-register-all"]
Inductive json : Type :=
| JNull
| JBool (b : bool)
| JNum (z : Z)
| JStr (s : string)
| JArr (l : list json)
| JObj (kvs : list (string * json)).

(** Exceptions the modelled code can meet. *)
Inductive exn : Type :=
| AttributeError
| TypeError
| KeyError
| ValueError
| RequestException (status : option Z).

Inductive result (A : Type) : Type :=
| Ret (a : A)
| Raise (e : exn).
Arguments Ret {A} a.
Arguments Raise {A} e.

Definition bind {A B} (m : result A) (k : A -> result B) : result B :=
  match m with
  | Ret a => k a
  | Raise e => Raise e
  end.

Notation "x <- m ;; k" := (bind m (fun x => k))
  (at level 61, m at next level, right associativity).

(** [d[key]] on the bindings of a dict, [None] when the key is absent. *)
Fixpoint dict_get (key : string) (kvs : list (string * json)) : option json :=
  match kvs with
  | [] => None
  | (k, v) :: rest => if String.eqb key k then Some v else dict_get key rest
  end.

(** [d[key] = v]: an existing key keeps its position, a new one goes last. *)
Fixpoint dict_set (key : string) (v : json) (kvs : list (string * json))
  : list (string * json) :=
  match kvs with
  | [] => [(key, v)]
  | (k, w) :: rest =>
      if String.eqb key k then (k, v) :: rest else (k, w) :: dict_set key v rest
  end.

(** [obj.get(key, default)]: only a dict has [get]. *)
Definition py_get (obj : json) (key : string) (default : json) : result json :=
  match obj with
  | JObj kvs =>
      match dict_get key kvs with
      | Some v => Ret v
      | None => Ret default
      end
  | _ => Raise AttributeError
  end.

(** Truth value of [if x:]. *)
Definition truthy (v : json) : bool :=
  match v with
  | JNull => false
  | JBool b => b
  | JNum z => negb (z =? 0)%Z
  | JStr s => negb (String.eqb s "")
  | JArr l => match l with [] => false | _ => true end
  | JObj kvs => match kvs with [] => false | _ => true end
  end.

Fixpoint chars (s : string) : list json :=
  match s with
  | EmptyString => []
  | String c rest => JStr (String c EmptyString) :: chars rest
  end.

(** The elements [for x in v] goes through: a list gives its elements, a
    string its characters, a dict its keys; anything else is not iterable. *)
Definition py_iter (v : json) : result (list json) :=
  match v with
  | JArr l => Ret l
  | JStr s => Ret (chars s)
  | JObj kvs => Ret (map (fun kv => JStr (fst kv)) kvs)
  | _ => Raise TypeError
  end.

Definition is_None (v : json) : bool :=
  match v with JNull => true | _ => false end.

(** [v == 0] ([False == 0] holds in Python). *)
Definition py_eq_0 (v : json) : bool :=
  match v with
  | JNum z => (z =? 0)%Z
  | JBool b => negb b
  | _ => false
  end.

(** [v > n] for an integer [n]; ordering a non-number against an integer
    raises [TypeError]. *)
Definition py_gt (v : json) (n : Z) : result bool :=
  match v with
  | JNum z => Ret (n <? z)%Z
  | JBool b => Ret (n <? (if b then 1 else 0))%Z
  | _ => Raise TypeError
  end.

(** ** Transport: one page request *)

Module APIClient.

(** What [requests] gives back for one POST. [json_body] is [None] when the
    body does not parse as JSON. *)
Record response : Type := { status_code : Z; json_body : option json }.

Inductive post_outcome : Type :=
| ConnectionError
| Response (r : response).

(** The remote end: the outcome of the [n]-th POST of a run (counting from 0)
    when its request body asks for [page]. Dates, limit and credentials are
    the same in every request of a run. *)
Definition server : Type := nat -> json -> post_outcome.

Definition session_post (o : post_outcome) : result response :=
  match o with
  | ConnectionError => Raise (RequestException None)
  | Response r => Ret r
  end.

Definition raise_for_status (r : response) : result unit :=
  if ((400 <=? status_code r) && (status_code r <? 600))%Z
  then Raise (RequestException (Some (status_code r)))
  else Ret tt.

Definition response_json (r : response) : result json :=
  match json_body r with
  | Some data => Ret data
  | None => Raise ValueError
  end.

(** [get_consensus_data_with_pagination] (api_client.py 189-238). The two
    [except] clauses catch [RequestException] and [ValueError]; any other
    exception would leave the function. *)
Definition get_consensus_data_with_pagination (o : post_outcome) : result json :=
  let body :=
    response <- session_post o ;;
    _ <- raise_for_status response ;;
    data <- response_json response ;;
    match data with
    | JObj kvs =>
        match dict_get "data" kvs with
        | Some d => Ret d
        | None => Ret JNull
        end
    | _ => Ret JNull
    end in
  match body with
  | Ret v => Ret v
  | Raise (RequestException _) => Ret JNull
  | Raise ValueError => Ret JNull
  | Raise e => Raise e
  end.

(** ** Paginator *)

(** How one pass through the body of [while True:] ends. *)
Inductive pass : Type :=
| Continue (page : json) (all_items : list json)
| Break (all_items : list json)
| Except (all_items : list json).

(** One pass of the loop body (api_client.py 150-180), from the value the
    transport returned. [all_items] is mutated in place by [extend], so an
    exception raised after line 164 sees the extended list. *)
Definition loop_body (response_data : result json) (all_items : list json) : pass :=
  match response_data with
  | Raise _ => Except all_items
  | Ret response_data =>
      if is_None response_data then Break all_items
      else
        match py_get response_data "items" (JArr []) with
        | Raise _ => Except all_items
        | Ret items =>
            match py_get response_data "paging" (JObj []) with
            | Raise _ => Except all_items
            | Ret paging =>
                if negb (truthy items) then Break all_items
                else
                  match py_iter items with
                  | Raise _ => Except all_items
                  | Ret new_items =>
                      let all_items := all_items ++ new_items in
                      match py_get paging "countItems"
                              (JNum (Z.of_nat (List.length new_items))) with
                      | Raise _ => Except all_items
                      | Ret _ =>
                          match py_get paging "nextPage" (JNum 0) with
                          | Raise _ => Except all_items
                          | Ret next_page =>
                              if is_None next_page || py_eq_0 next_page
                              then Break all_items
                              else
                                match py_gt next_page 100 with
                                | Raise _ => Except all_items
                                | Ret true => Break all_items
                                | Ret false => Continue next_page all_items
                                end
                          end
                      end
                  end
            end
        end
  end.

(** What a run of the paginator leaves behind: the value it returns ([None]
    is Python's [None]) and the pages it asked the transport for, in order. *)
Record outcome : Type := { returned : option (list json); requested : list json }.

(** The [while True:] loop with its exits. [fuel] bounds the number of
    passes; [None] means the loop is still running when the fuel is spent. *)
Fixpoint fetch_loop (srv : server) (fuel : nat) (page : json)
    (all_items : list json) (asked : list json) : option outcome :=
  match fuel with
  | O => None
  | S fuel' =>
      let n := List.length asked in
      let asked := asked ++ [page] in
      match loop_body (get_consensus_data_with_pagination (srv n page)) all_items with
      | Continue next_page all_items => fetch_loop srv fuel' next_page all_items asked
      | Break all_items =>
          Some {| returned := Some all_items; requested := asked |}
      | Except all_items =>
          Some {| returned := match all_items with [] => None | _ => Some all_items end;
                  requested := asked |}
      end
  end.

(** [get_all_consensus_data] (api_client.py 133-187). *)
Definition get_all_consensus_data (srv : server) (fuel : nat) : option outcome :=
  fetch_loop srv fuel (JNum 1) [] [].

End APIClient.

(** ** Flattener: the row expansion of [process_data] *)

Module DataProcessor.

(** A row is the Python dict appended to [processed_records]. *)
Definition row : Type := list (string * json).

(** The [for i, demo_uuid in enumerate(demo_uuids)] loop
    (data_processor.py 52-61), from index [i] on. *)
Fixpoint enumerate_rows (demoboard_info : row) (i : nat) (demo_uuids : list json)
  : list row :=
  match demo_uuids with
  | [] => []
  | demo_uuid :: rest =>
      let demo_record := demoboard_info in
      let demo_record :=
        if Nat.eqb i 0
        then dict_set "demoUuids" demo_uuid demo_record
        else dict_set "demoUuids" demo_uuid
               (dict_set "senddemoUuid" (JStr "") demo_record) in
      demo_record :: enumerate_rows demoboard_info (S i) rest
  end.

(** The body of [for record in data:] (data_processor.py 30-65): the rows
    one record appends to [processed_records]. *)
Definition expand_record (record : json) : result (list row) :=
  senddemoUuid <- py_get record "senddemoUuid" (JStr "") ;;
  demoboardName <- py_get record "demoboardName" (JStr "") ;;
  organization <- py_get record "organization" (JStr "") ;;
  viewTime <- py_get record "viewTime" (JNum 0) ;;
  timeLastView <- py_get record "timeLastView" (JStr "") ;;
  let demoboard_info : row :=
    [ ("senddemoUuid", senddemoUuid);
      ("demoboardName", demoboardName);
      ("organization", organization);
      ("viewTime", viewTime);
      ("timeLastView", timeLastView) ] in
  ext_opp <- py_get record "externalOpportunity" (JObj []) ;;
  externalAccountId <- py_get ext_opp "externalAccountId" (JStr "") ;;
  externalOpportunityId <- py_get ext_opp "externalOpportunityId" (JStr "") ;;
  externalAccountName <- py_get ext_opp "externalAccountName" (JStr "") ;;
  externalOpportunityName <- py_get ext_opp "externalOpportunityName" (JStr "") ;;
  let demoboard_info :=
    dict_set "externalOpportunityName" externalOpportunityName
      (dict_set "externalAccountName" externalAccountName
         (dict_set "externalOpportunityId" externalOpportunityId
            (dict_set "externalAccountId" externalAccountId demoboard_info))) in
  demo_uuids <- py_get record "demoUuids" (JArr []) ;;
  if truthy demo_uuids then
    ids <- py_iter demo_uuids ;;
    Ret (enumerate_rows demoboard_info 0 ids)
  else
    demoUuid <- py_get record "demoUuid" (JStr "") ;;
    Ret [dict_set "demoUuids" demoUuid demoboard_info].

(** [processed_records] after the loop over [data] (data_processor.py
    27-65); an exception in any record leaves the loop. *)
Fixpoint processed_records (data : list json) : result (list row) :=
  match data with
  | [] => Ret []
  | record :: rest =>
      rows <- expand_record record ;;
      more <- processed_records rest ;;
      Ret (rows ++ more)
  end.

(** [process_data] (data_processor.py 10-78) hands the rows to pandas:
    [pd.DataFrame(processed_records)] builds the frame and
    [_clean_consensus_data] post-processes it. Both are made of pandas
    calls: they are parameters here, and the module [Pandas] below gives
    them; [except Exception] answers with an empty frame. *)
Section ProcessData.

Variable Frame : Type.
Variable pd_DataFrame : list row -> Frame.
Variable _clean_consensus_data : Frame -> result Frame.

Definition process_data (data : list json) : Frame :=
  let body :=
    match data with
    | [] => Ret (pd_DataFrame [])
    | _ =>
        rows <- processed_records data ;;
        _clean_consensus_data (pd_DataFrame rows)
    end in
  match body with
  | Ret df => df
  | Raise _ => pd_DataFrame []
  end.

End ProcessData.

(** ** Projector *)

(** The part of a pandas [DataFrame] that [create_summary_csv] works on: the
    column labels and, per row, the cells in column order. The cells are not
    inspected, so their type is left open. *)
Section Frame.

Variable cell : Type.

Record DataFrame : Type := { columns : list string; values : list (list cell) }.

(** [pd.DataFrame()] *)
Definition new_frame : DataFrame := {| columns := []; values := [] |}.

(** [df.empty]: no rows or no columns. *)
Definition empty (df : DataFrame) : bool :=
  match columns df, values df with
  | [], _ => true
  | _, [] => true
  | _, _ => false
  end.

(** [col in df.columns] *)
Definition has_column (df : DataFrame) (col : string) : bool :=
  existsb (String.eqb col) (columns df).

(** Positions, from [i] on, of the columns labelled [col]. *)
Fixpoint positions (col : string) (i : nat) (labels : list string) : list nat :=
  match labels with
  | [] => []
  | l :: rest =>
      if String.eqb col l then i :: positions col (S i) rest
      else positions col (S i) rest
  end.

Definition take_cells (r : list cell) (ps : list nat) : list cell :=
  flat_map (fun p => match nth_error r p with Some c => [c] | None => [] end) ps.

(** [df[cols]] for a list of labels: the columns carrying each label, in the
    order of [cols]; a label that no column carries raises [KeyError]. *)
Definition getitem (df : DataFrame) (cols : list string) : result DataFrame :=
  if forallb (has_column df) cols then
    let ps := flat_map (fun col => positions col 0 (columns df)) cols in
    Ret {| columns := map (fun p => nth p (columns df) "") ps;
           values := map (fun r => take_cells r ps) (values df) |}
  else Raise KeyError.

(** The label [l] after renaming by [mapping]: labels that are not keys of
    the mapping stay as they are. *)
Definition renamed (mapping : list (string * string)) (l : string) : string :=
  match find (fun kv => String.eqb l (fst kv)) mapping with
  | Some kv => snd kv
  | None => l
  end.

(** [df.rename(columns=mapping)] *)
Definition rename (mapping : list (string * string)) (df : DataFrame) : DataFrame :=
  {| columns := map (renamed mapping) (columns df); values := values df |}.

Definition summary_columns : list string :=
  [ "senddemoUuid"; "demoUuids"; "externalAccountId"; "externalOpportunityId";
    "viewTime"; "timeLastView" ].

Definition column_mapping : list (string * string) :=
  [ ("senddemoUuid", "Demoboard_ID");
    ("demoUuids", "Demo_IDs");
    ("externalAccountId", "Salesforce_External_AccountId");
    ("externalOpportunityId", "Salesforce_External_OppId");
    ("viewTime", "View_Time_Seconds");
    ("timeLastView", "Demoboard_View_Date") ].

(** [create_summary_csv] (data_processor.py 112-166); [except Exception]
    returns the input frame. *)
Definition create_summary_csv (df : DataFrame) : DataFrame :=
  let body :=
    if empty df then Ret new_frame
    else
      let available_columns := filter (has_column df) summary_columns in
      match available_columns with
      | [] => Ret df
      | _ =>
          summary_df <- getitem df available_columns ;;
          Ret (rename column_mapping summary_df)
      end in
  match body with
  | Ret out => out
  | Raise _ => df
  end.

End Frame.

Arguments columns {cell} _.
Arguments values {cell} _.
Arguments new_frame {cell}.
Arguments empty {cell} _.
Arguments has_column {cell} _ _.
Arguments take_cells {cell} _ _.
Arguments getitem {cell} _ _.
Arguments rename {cell} _ _.
Arguments DataFrame : clear implicits.
Arguments create_summary_csv {cell} _.

End DataProcessor.

(** ** Vocabulary of the statements *)

Module Runs.
Import APIClient.

(** The transport hands [d] to the paginator for the [n]-th request, which
    asks for [page]. *)
Definition serves (srv : server) (n : nat) (page d : json) : Prop :=
  get_consensus_data_with_pagination (srv n page) = Ret d.

(** [d] is a page whose item list is [its] and whose paging info holds
    [next] under [nextPage] ([None]: no such key). *)
Definition page_value (d : json) (its : list json) (next : option json) : Prop :=
  exists kvs pg,
    d = JObj kvs /\
    dict_get "items" kvs = Some (JArr its) /\
    dict_get "paging" kvs = Some (JObj pg) /\
    dict_get "nextPage" pg = next.

(** A page that ends the data: [nextPage] is 0, null or absent. *)
Definition final_page (d : json) (its : list json) : Prop :=
  page_value d its None \/
  page_value d its (Some JNull) \/
  page_value d its (Some (JNum 0)).

(** The successful pages of a run in arrival order, each with its items and
    the [nextPage] it reports. *)
Definition script : Type := list (list json * Z).

(** The server answers the requests of a run that starts with request
    number [n] for [page] by the pages of the script, each request asking
    for the page the previous answer pointed to. *)
Fixpoint follows (srv : server) (n : nat) (page : json) (s : script) : Prop :=
  match s with
  | [] => True
  | (its, next) :: rest =>
      (exists d, serves srv n page d /\ page_value d its (Some (JNum next))) /\
      follows srv (S n) (JNum next) rest
  end.

(** Every page has at least one item and a [nextPage] that the loop follows:
    not 0 and not above the page limit. *)
Definition advancing (s : script) : Prop :=
  Forall (fun p => fst p <> [] /\ snd p <> 0%Z /\ (snd p <= 100)%Z) s.

(** The page the loop asks for after the script, starting from [page]. *)
Fixpoint cursor (page : json) (s : script) : json :=
  match s with
  | [] => page
  | (_, next) :: rest => cursor (JNum next) rest
  end.

(** The pages asked for while going through the script. *)
Fixpoint asked_pages (page : json) (s : script) : list json :=
  match s with
  | [] => []
  | (_, next) :: rest => page :: asked_pages (JNum next) rest
  end.

Definition items_of (s : script) : list json := List.concat (map fst s).

(** The body [{data: {items, paging: {page, countItems, nextPage, limit}}}]
    of a well-formed answer. *)
Definition page_body (page : json) (its : list json) (next : Z) : json :=
  JObj [ ("data",
          JObj [ ("items", JArr its);
                 ("paging",
                  JObj [ ("page", page);
                         ("countItems", JNum (Z.of_nat (List.length its)));
                         ("nextPage", JNum next);
                         ("limit", JNum 500) ]) ]) ].

Definition ok (body : json) : post_outcome :=
  Response {| status_code := 200; json_body := Some body |}.

(** A cursor cycle: page 1 points to page 2 and page 2 back to page 1; every
    page holds one record. *)
Definition cyclic_server : server :=
  fun _ page =>
    match page with
    | JNum 1 => ok (page_body page [JStr "r1"] 2)
    | _ => ok (page_body page [JStr "r2"] 1)
    end.

(** Pages numbered from 1, each holding one record and pointing to the next
    number; page [last] reports [nextPage = 0] and there is nothing after. *)
Definition sequential_server (last : Z) : server :=
  fun _ page =>
    match page with
    | JNum p =>
        if ((1 <=? p) && (p <=? last))%Z
        then ok (page_body page [JNum p] (if (p <? last)%Z then p + 1 else 0))
        else Response {| status_code := 404; json_body := None |}
    | _ => Response {| status_code := 400; json_body := None |}
    end.

(** Two pages, then the third request fails with a server error. *)
Definition failing_third : server :=
  fun n page =>
    match n with
    | 0 => ok (page_body page [JStr "a"; JStr "b"] 2)
    | 1 => ok (page_body page [JStr "c"] 3)
    | _ => Response {| status_code := 500; json_body := None |}
    end.

(** The same two pages, the second being the last one. *)
Definition two_pages : server :=
  fun n page =>
    match n with
    | 0 => ok (page_body page [JStr "a"; JStr "b"] 2)
    | _ => ok (page_body page [JStr "c"] 0)
    end.

End Runs.

(** Vocabulary for records and frames. *)
Module Tables.
Import DataProcessor.

(** [record.get(key, default)] on the bindings of a record. *)
Definition field_or (key : string) (default : json) (fields : list (string * json))
  : json :=
  match dict_get key fields with
  | Some v => v
  | None => default
  end.

(** The [externalOpportunity] of a record is a mapping when it is there. *)
Definition opportunity_ok (fields : list (string * json)) : Prop :=
  dict_get "externalOpportunity" fields = None \/
  exists o, dict_get "externalOpportunity" fields = Some (JObj o).

(** A RawRecord of the data model: a mapping whose [externalOpportunity],
    when present, is a mapping and whose [demoUuids], when present, is a
    list. *)
Definition raw_record (fields : list (string * json)) : Prop :=
  opportunity_ok fields /\
  (dict_get "demoUuids" fields = None \/
   exists ids, dict_get "demoUuids" fields = Some (JArr ids)).

(** The base mapping [demoboard_info] of a record with bindings [fields]
    whose [externalOpportunity] has bindings [o]. *)
Definition base_info (fields o : list (string * json)) : row :=
  [ ("senddemoUuid", field_or "senddemoUuid" (JStr "") fields);
    ("demoboardName", field_or "demoboardName" (JStr "") fields);
    ("organization", field_or "organization" (JStr "") fields);
    ("viewTime", field_or "viewTime" (JNum 0) fields);
    ("timeLastView", field_or "timeLastView" (JStr "") fields);
    ("externalAccountId", field_or "externalAccountId" (JStr "") o);
    ("externalOpportunityId", field_or "externalOpportunityId" (JStr "") o);
    ("externalAccountName", field_or "externalAccountName" (JStr "") o);
    ("externalOpportunityName", field_or "externalOpportunityName" (JStr "") o) ].

(** The scenario of the specification: one demoboard, two sessions. *)
Definition scenario_record : list (string * json) :=
  [ ("senddemoUuid", JStr "A1");
    ("demoUuids", JArr [ JStr "d1"; JStr "d2" ]);
    ("viewTime", JNum 42);
    ("timeLastView", JStr "2025-01-01");
    ("externalOpportunity", JObj [ ("externalAccountId", JStr "X") ]) ].

(** Position of the first column labelled [col]. *)
Fixpoint index_of (col : string) (labels : list string) : option nat :=
  match labels with
  | [] => None
  | l :: rest =>
      if String.eqb col l then Some 0
      else option_map S (index_of col rest)
  end.

(** The cell of row [r] under the column labelled [col]. *)
Definition cell_at {cell : Type} (labels : list string) (r : list cell) (col : string)
  : option cell :=
  match index_of col labels with
  | Some i => nth_error r i
  | None => None
  end.

(** A frame built from dict rows: distinct labels, one cell per column in
    every row. *)
Definition well_formed {cell : Type} (df : DataFrame cell) : Prop :=
  NoDup (columns df) /\
  Forall (fun r => List.length r = List.length (columns df)) (values df).

(** A frame with a column and no row. *)
Definition no_rows (label : string) : DataFrame json :=
  {| columns := [label]; values := [] |}.

(** Three rows over a detail column and the six summary columns, stored in
    another order than the table. *)
Definition sample_frame : DataFrame json :=
  {| columns := [ "timeLastView"; "organization"; "viewTime"; "demoUuids";
                  "senddemoUuid"; "externalOpportunityId"; "externalAccountId" ];
     values :=
       [ [ JStr "2025-01-01"; JStr "Acme"; JNum 42; JStr "d1"; JStr "A1";
           JStr "O1"; JStr "X" ];
         [ JStr "2025-01-01"; JStr "Acme"; JNum 42; JStr "d2"; JStr "";
           JStr "O1"; JStr "X" ];
         [ JStr "2025-01-01"; JStr "Acme"; JNum 42; JStr "d2"; JStr "";
           JStr "O1"; JStr "X" ] ] |}.

(** Two rows with two of the summary columns and one other column. *)
Definition partial_frame : DataFrame json :=
  {| columns := [ "viewTime"; "organization"; "senddemoUuid" ];
     values := [ [ JNum 7; JStr "Acme"; JStr "A1" ];
                 [ JNum 9; JStr "Acme"; JStr "" ] ] |}.

(** A frame without any of the summary columns. *)
Definition foreign_frame : DataFrame json :=
  {| columns := [ "organization" ]; values := [ [ JStr "Acme" ] ] |}.

End Tables.

(** ** The other requests of [APIClient] *)

(** [key in container] for a string key: a dict is asked for the key, a list
    for an equal element, a string for the substring; other values do not
    support [in]. *)
Fixpoint contains (needle s : string) : bool :=
  if String.prefix needle s then true
  else match s with
       | EmptyString => false
       | String _ rest => contains needle rest
       end.

Definition py_in (key : string) (container : json) : result bool :=
  match container with
  | JObj kvs => Ret (match dict_get key kvs with Some _ => true | None => false end)
  | JArr l =>
      Ret (existsb (fun x => match x with JStr s => String.eqb key s | _ => false end) l)
  | JStr s => Ret (contains key s)
  | _ => Raise TypeError
  end.

(** [container[key]] for a string key: only a dict can be indexed by a
    string, and a missing key raises [KeyError]. *)
Definition py_item (container : json) (key : string) : result json :=
  match container with
  | JObj kvs =>
      match dict_get key kvs with
      | Some v => Ret v
      | None => Raise KeyError
      end
  | _ => Raise TypeError
  end.

(** [len(v)] *)
Definition py_len (v : json) : result nat :=
  match v with
  | JArr l => Ret (List.length l)
  | JStr s => Ret (String.length s)
  | JObj kvs => Ret (List.length kvs)
  | _ => Raise TypeError
  end.

(** [s.lstrip(c)] and [s.rstrip(c)] for a single character [c]. *)
Fixpoint lstrip (c : ascii) (s : string) : string :=
  match s with
  | EmptyString => EmptyString
  | String a rest => if Ascii.eqb a c then lstrip c rest else s
  end.

Fixpoint rstrip (c : ascii) (s : string) : string :=
  match s with
  | EmptyString => EmptyString
  | String a rest =>
      match rstrip c rest with
      | EmptyString => if Ascii.eqb a c then EmptyString else String a EmptyString
      | kept => String a kept
      end
  end.

Module Requests.
Import APIClient.

(** The URL of [get] (api_client.py 39). *)
Definition get_url (base_url endpoint : string) : string :=
  (rstrip "/" base_url ++ "/" ++ lstrip "/" endpoint)%string.

(** [get] (api_client.py 27-55); [net] is the remote end, asked by URL
    (the query parameters are those of the call). *)
Definition get (base_url endpoint : string) (net : string -> post_outcome)
  : result json :=
  let body :=
    response <- session_post (net (get_url base_url endpoint)) ;;
    _ <- raise_for_status response ;;
    data <- response_json response ;;
    Ret data in
  match body with
  | Ret v => Ret v
  | Raise (RequestException _) => Ret JNull
  | Raise ValueError => Ret JNull
  | Raise e => Raise e
  end.

(** [get_consensus_data] (api_client.py 57-131), asked for [page]. The
    f-strings of lines 101 and 111 evaluate [len(items)] and the paging
    fields; line 113 compares [next_page] with 0. Only [RequestException]
    and [ValueError] are caught. *)
Definition get_consensus_data (o : post_outcome) (page : json) : result json :=
  let body :=
    response <- session_post o ;;
    _ <- raise_for_status response ;;
    data <- response_json response ;;
    expected <-
      match data with
      | JObj kvs =>
          match dict_get "data" kvs with
          | Some d => py_in "items" d
          | None => Ret false
          end
      | _ => Ret false
      end ;;
    if expected : bool then
      d <- py_item data "data" ;;
      items <- py_item d "items" ;;
      n <- py_len items ;;
      has_paging <- py_in "paging" d ;;
      if has_paging : bool then
        paging <- py_item d "paging" ;;
        current_page <- py_get paging "page" page ;;
        count_items <- py_get paging "countItems" (JNum (Z.of_nat n)) ;;
        next_page <- py_get paging "nextPage" (JNum 0) ;;
        limit <- py_get paging "limit" (JNum 500) ;;
        more <- py_gt next_page 0 ;;
        Ret items
      else Ret items
    else Ret data in
  match body with
  | Ret v => Ret v
  | Raise (RequestException _) => Ret JNull
  | Raise ValueError => Ret JNull
  | Raise e => Raise e
  end.

End Requests.

(** ** The entry point *)

Module Main.
Import APIClient DataProcessor.

Section Main.

Variable cell : Type.

(** pandas: frame construction, the cleaning pass, and the two tables that
    [get_data_summary] asks the frame for, [df.dtypes.to_dict()] and
    [df.isnull().sum().to_dict()]; what pandas raises in them is theirs. *)
Variable pd_DataFrame : list row -> DataFrame cell.
Variable _clean_consensus_data : DataFrame cell -> result (DataFrame cell).
Variable df_dtypes : DataFrame cell -> result (list (string * string)).
Variable df_null_counts : DataFrame cell -> result (list (string * nat)).

(** [export_to_csv] answers whether the file could be written; that is up
    to the file system. *)
Variable export_to_csv : DataFrame cell -> string -> bool.

(** The two values of [datetime.now().strftime('%Y%m%d')]. *)
Variables stamp_full stamp_summary : string.

(** The dict of [get_data_summary]. *)
Record summary : Type :=
  { rows : nat;
    n_columns : nat;
    column_names : list string;
    data_types : list (string * string);
    null_counts : list (string * nat) }.

(** [get_data_summary] (data_processor.py 196-213): the entries of the dict
    are computed in the order they are written. *)
Definition get_data_summary (df : DataFrame cell) : result summary :=
  types <- df_dtypes df ;;
  nulls <- df_null_counts df ;;
  Ret {| rows := List.length (values df);
         n_columns := List.length (columns df);
         column_names := columns df;
         data_types := types;
         null_counts := nulls |}.

(** How [main] ends: the exit status of the process and the exports it
    attempted, in order. *)
Record finished : Type :=
  { exit_status : Z; exports : list (string * DataFrame cell) }.

(** The [try] block of [main] (main.py 30-81) once the paginator has
    answered. [sys.exit] raises [SystemExit], which is no [Exception]: an
    exit inside the block is a value here, and only an exception of the
    block reaches the handler. Falling off the end is status 0. The
    constructor of the client, the paginator, [process_data],
    [create_summary_csv] and [export_to_csv] raise nothing: the last four
    catch [Exception] themselves. *)
Definition main_try (answer : option (list json)) : result finished :=
  match answer with
  | None => Ret {| exit_status := 1; exports := [] |}
  | Some data =>
      let df := process_data _ pd_DataFrame _clean_consensus_data data in
      if empty df then Ret {| exit_status := 0; exports := [] |}
      else
        logged <- get_data_summary df ;;
        let summary_df := create_summary_csv df in
        let full_data_filename :=
          ("consensus_full_data_" ++ stamp_full ++ ".csv")%string in
        let summary_filename :=
          ("consensus_summary_" ++ stamp_summary ++ ".csv")%string in
        let full_success := export_to_csv df full_data_filename in
        let summary_success := export_to_csv summary_df summary_filename in
        Ret {| exit_status := if full_success && summary_success then 0 else 1;
               exports := [ (full_data_filename, df);
                            (summary_filename, summary_df) ] |}
  end.

(** [main] (main.py 25-85). [setup_logging] is what the call of line 27
    does: it raises when [Config.LOG_LEVEL] names no level of [logging] or
    the log file cannot be opened, and, being outside the [try], ends the
    process with a traceback and status 1. Inside the [try],
    [except Exception] turns an exception into status 1. *)
Definition main (setup_logging : result unit) (srv : server) (fuel : nat)
  : option finished :=
  match setup_logging with
  | Raise _ => Some {| exit_status := 1; exports := [] |}
  | Ret _ =>
      match get_all_consensus_data srv fuel with
      | None => None
      | Some o =>
          match main_try (returned o) with
          | Ret f => Some f
          | Raise _ => Some {| exit_status := 1; exports := [] |}
          end
      end
  end.

End Main.

Arguments exit_status {cell} _.
Arguments exports {cell} _.

End Main.

(** More vocabulary. *)
Module Shapes.
Import DataProcessor.

(** The keys of every row, in the order the code inserts them. *)
Definition row_keys : list string :=
  [ "senddemoUuid"; "demoboardName"; "organization"; "viewTime"; "timeLastView";
    "externalAccountId"; "externalOpportunityId"; "externalAccountName";
    "externalOpportunityName"; "demoUuids" ].

(** Number of session ids of a record ([demoUuids] a list, else 0). *)
Definition session_count (fields : list (string * json)) : nat :=
  match dict_get "demoUuids" fields with
  | Some (JArr ids) => List.length ids
  | _ => 0
  end.

(** [n] slashes. *)
Fixpoint slashes (n : nat) : string :=
  match n with
  | O => EmptyString
  | S m => String "/" (slashes m)
  end.

(** The cursor of the server only moves forward: an answer to a request for
    page [p] points to a page after [p], or ends the data. *)
Definition forward_cursor (srv : APIClient.server) : Prop :=
  forall n p kvs pg nx,
    Runs.serves srv n (JNum p) (JObj kvs) ->
    dict_get "paging" kvs = Some (JObj pg) ->
    dict_get "nextPage" pg = Some nx ->
    nx = JNull \/ exists q, nx = JNum q /\ (q = 0 \/ p < q)%Z.

(** A frame builder for examples: one column holding the whole row. *)
Definition one_column (rows : list row) : DataFrame row :=
  match rows with
  | [] => new_frame
  | _ => {| columns := [ "row" ]; values := map (fun r => [r]) rows |}
  end.

End Shapes.

(** ** pandas: frame construction and the cleaning pass

    The pandas calls of [process_data] and [_clean_consensus_data], after the
    pandas 2 documentation. A cell records how its column stores it: a
    Python object in a column of dtype [object], or an element of an
    [int64], [float64] or [bool] column. The characters of a string are
    code points below 256, and the integers of the records fit in 64 bits
    ([int64] below). What the library computes on floats and on the text of
    numbers stays a parameter, gathered in [numerics]. *)

Module Pandas.
Import DataProcessor.

(** What [pd.to_numeric] reads in a string. *)
Inductive number (F : Type) : Type :=
| IntVal (z : Z)
| FloatVal (x : F).
Arguments IntVal {F} z.
Arguments FloatVal {F} x.

(** The float64 values with the conversion of an integer, the number that
    [pd.to_numeric] reads in a string ([None]: it does not parse), and
    Python's [str] of a list or a dict. *)
Record numerics : Type :=
  { float : Type;
    float_of_int : Z -> float;
    parse_number : string -> option (number float);
    str_of_container : json -> string }.

Inductive cell (lib : numerics) : Type :=
| Obj (v : json)
| ObjNaN
| I64 (z : Z)
| F64 (x : option (float lib))
| Bool (b : bool).
Arguments Obj {lib} v.
Arguments ObjNaN {lib}.
Arguments I64 {lib} z.
Arguments F64 {lib} x.
Arguments Bool {lib} b.

(** The dtype pandas infers for a column of Python values. *)
Inductive kind : Type := KInt | KFloat | KBool | KObject.

(** A value of a record under a key is [None] when the record lacks the
    key; pandas then fills in a float NaN. *)
Definition is_int (v : option json) : bool :=
  match v with Some (JNum _) => true | _ => false end.

Definition is_bool (v : option json) : bool :=
  match v with Some (JBool _) => true | _ => false end.

Definition is_missing (v : option json) : bool :=
  match v with None => true | _ => false end.

(** [None] or NaN. *)
Definition raw_na (v : option json) : bool :=
  match v with None => true | Some JNull => true | _ => false end.

(** Integers only give [int64]; booleans only give [bool]; integers, NaN
    and [None] with at least one number among them give [float64]; anything
    else (a string, a list, a mix, nothing but [None]) gives [object]. *)
Definition infer (vs : list (option json)) : kind :=
  if forallb is_int vs then KInt
  else if forallb is_bool vs then KBool
  else if forallb (fun v => is_int v || raw_na v) vs
          && existsb (fun v => is_int v || is_missing v) vs then KFloat
  else KObject.

(** Whitespace for [str.strip()], a character being a code point below 256:
    tab to carriage return, the four separators, the space, next line and
    the no-break space. *)
Definition is_space (a : ascii) : bool :=
  let n := nat_of_ascii a in
  (Nat.leb 9 n && Nat.leb n 13) || (Nat.leb 28 n && Nat.leb n 32)
  || Nat.eqb n 133 || Nat.eqb n 160.

Fixpoint lstrip_space (s : string) : string :=
  match s with
  | EmptyString => EmptyString
  | String a rest => if is_space a then lstrip_space rest else s
  end.

Fixpoint rstrip_space (s : string) : string :=
  match s with
  | EmptyString => EmptyString
  | String a rest =>
      match rstrip_space rest with
      | EmptyString => if is_space a then EmptyString else String a EmptyString
      | kept => String a kept
      end
  end.

(** [s.strip()] *)
Definition strip (s : string) : string := rstrip_space (lstrip_space s).

(** [str(z)] for an integer. *)
Definition decimal (z : Z) : string :=
  DecimalString.NilZero.string_of_int (Z.to_int z).

(** The keys of the records in the order of their first appearance. *)
Definition add_keys (seen : list string) (r : row) : list string :=
  fold_left (fun acc k => if existsb (String.eqb k) acc then acc else acc ++ [k])
    (map fst r) seen.

Definition union_keys (rows : list row) : list string :=
  fold_left add_keys rows [].

Section Clean.

Variable lib : numerics.

(** [str(v)] *)
Definition py_str (v : json) : string :=
  match v with
  | JNull => "None"
  | JBool true => "True"
  | JBool false => "False"
  | JNum z => decimal z
  | JStr s => s
  | _ => str_of_container lib v
  end.

Definition make_cell (k : kind) (v : option json) : cell lib :=
  match k, v with
  | KInt, Some (JNum z) => I64 z
  | KBool, Some (JBool b) => Bool b
  | KFloat, Some (JNum z) => F64 (Some (float_of_int lib z))
  | KFloat, Some JNull => F64 None
  | KFloat, None => F64 None
  | _, Some v => Obj v
  | _, None => ObjNaN
  end.

(** [pd.DataFrame(records)] for a list of dicts. *)
Definition pd_DataFrame (records : list row) : DataFrame (cell lib) :=
  let cols := union_keys records in
  {| columns := cols;
     values :=
       map (fun r =>
              map (fun c =>
                     make_cell (infer (map (dict_get c) records)) (dict_get c r))
                cols)
         records |}.

(** [df.isna()] on a cell *)
Definition isna (c : cell lib) : bool :=
  match c with
  | Obj JNull => true
  | ObjNaN => true
  | F64 None => true
  | _ => false
  end.

(** [df.dropna(how='all')]: rows in which every cell is missing go. *)
Definition dropna_all (df : DataFrame (cell lib)) : DataFrame (cell lib) :=
  {| columns := columns df;
     values := filter (fun r => negb (forallb isna r)) (values df) |}.

(** [df.replace(['null', 'None', None], '')]: the values of the [object]
    columns that are one of the two strings or missing become ['']; the
    numeric columns cannot hold any of the three and stay as they are. *)
Definition replace_null (c : cell lib) : cell lib :=
  match c with
  | Obj (JStr s) =>
      if String.eqb s "null" || String.eqb s "None" then Obj (JStr "") else c
  | Obj JNull => Obj (JStr "")
  | ObjNaN => Obj (JStr "")
  | _ => c
  end.

(** [df[col].astype(str).str.strip()] on a cell of an [object] column. *)
Definition astype_str_strip (c : cell lib) : cell lib :=
  match c with
  | Obj v => Obj (JStr (strip (py_str v)))
  | ObjNaN => Obj (JStr (strip "nan"))
  | _ => c
  end.

(** [df[col].replace('nan', '')] on a cell of an [object] column. *)
Definition replace_nan (c : cell lib) : cell lib :=
  match c with
  | Obj (JStr s) => if String.eqb s "nan" then Obj (JStr "") else c
  | _ => c
  end.

Definition map_cells (f : cell lib -> cell lib) (df : DataFrame (cell lib))
  : DataFrame (cell lib) :=
  {| columns := columns df; values := map (map f) (values df) |}.

(** What [pd.to_numeric(..., errors='coerce')] makes of a value of an
    [object] column: [None] is NaN. *)
Definition coerce (c : cell lib) : option (number (float lib)) :=
  match c with
  | Obj (JStr s) => parse_number lib s
  | Obj (JNum z) => Some (IntVal z)
  | Obj (JBool b) => Some (IntVal (if b then 1 else 0))
  | _ => None
  end.

Definition is_object (c : cell lib) : bool :=
  match c with Obj _ => true | ObjNaN => true | _ => false end.

Definition reads_int (c : cell lib) : bool :=
  match coerce c with Some (IntVal _) => true | _ => false end.

(** The element of the converted column: [int64] when every value of the
    column reads as an integer, [float64] otherwise. A column that is
    numeric already stays as it is. *)
Definition to_numeric_cell (all_int : bool) (c : cell lib) : cell lib :=
  if is_object c then
    match coerce c with
    | Some (IntVal z) => if all_int then I64 z else F64 (Some (float_of_int lib z))
    | Some (FloatVal x) => F64 (Some x)
    | None => F64 None
    end
  else c.

Fixpoint update (i : nat) (f : cell lib -> cell lib) (r : list (cell lib))
  : list (cell lib) :=
  match r, i with
  | [], _ => []
  | c :: rest, O => f c :: rest
  | c :: rest, S j => c :: update j f rest
  end.

(** The cells of column [i]. *)
Definition column_cells (i : nat) (rows : list (list (cell lib))) : list (cell lib) :=
  flat_map (fun r => match nth_error r i with Some c => [c] | None => [] end) rows.

(** [df[col] = pd.to_numeric(df[col], errors='coerce')] when [col] is a
    column of the frame. *)
Definition to_numeric_column (col : string) (df : DataFrame (cell lib))
  : DataFrame (cell lib) :=
  match Tables.index_of col (columns df) with
  | None => df
  | Some i =>
      let all_int :=
        forallb reads_int (filter is_object (column_cells i (values df))) in
      {| columns := columns df;
         values := map (update i (to_numeric_cell all_int)) (values df) |}
  end.

(** [_clean_consensus_data] (data_processor.py 80-110). *)
Definition _clean_consensus_data (df : DataFrame (cell lib)) : DataFrame (cell lib) :=
  let df := dropna_all df in
  let df := map_cells replace_null df in
  let df := map_cells astype_str_strip df in
  let df := map_cells replace_nan df in
  to_numeric_column "viewTime" df.

(** [process_data] (data_processor.py 10-78) with these pandas calls. *)
Definition process_data (data : list json) : DataFrame (cell lib) :=
  DataProcessor.process_data (DataFrame (cell lib)) pd_DataFrame
    (fun df => Ret (_clean_consensus_data df)) data.

(** The float64 reading of a numeric cell: [Some None] is NaN, [None] says
    that the cell is not numeric. *)
Definition as_float (c : cell lib) : option (option (float lib)) :=
  match c with
  | I64 z => Some (Some (float_of_int lib z))
  | F64 x => Some x
  | _ => None
  end.

Definition number_as_float (n : option (number (float lib))) : option (float lib) :=
  match n with
  | Some (IntVal z) => Some (float_of_int lib z)
  | Some (FloatVal x) => Some x
  | None => None
  end.

End Clean.

(** What the cleaning pass makes of a string of an [object] column: the
    two null words go first, then the whitespace around, then ["nan"]. *)
Definition clean_string (s : string) : string :=
  let s := if String.eqb s "null" || String.eqb s "None" then "" else s in
  let s := strip s in
  if String.eqb s "nan" then "" else s.

(** Every value of the row is [None]. *)
Definition blank (r : row) : bool :=
  forallb (fun c => raw_na (dict_get c r)) Shapes.row_keys.

(** The integers of an [int64] column. *)
Definition int64 (z : Z) : Prop := (- 2 ^ 63 <= z < 2 ^ 63)%Z.

(** A flattened row of the data model: the ten keys, [viewTime] an integer,
    a string or null, every other value a string or null. *)
Definition flat_row (r : row) : Prop :=
  map fst r = Shapes.row_keys /\
  forall k v, In (k, v) r ->
    v = JNull \/ (exists s, v = JStr s) \/
    (k = "viewTime" /\ exists z, v = JNum z /\ int64 z).

(** The cell a cleaned frame holds for a string or a null of the row. *)
Definition clean_text (v : json) : string :=
  match v with
  | JStr s => clean_string s
  | _ => ""
  end.

(** Integers written in decimal, as a parser for examples. *)
Definition parse_decimal (s : string) : option (number Z) :=
  match DecimalString.NilZero.int_of_string s with
  | Some d => Some (IntVal (Z.of_int d))
  | None => None
  end.

Definition integers : numerics :=
  {| float := Z;
     float_of_int := fun z => z;
     parse_number := parse_decimal;
     str_of_container := fun _ => "" |}.

(** A record all of whose fields are null. *)
Definition null_record : list (string * json) :=
  [ ("senddemoUuid", JNull); ("demoboardName", JNull); ("organization", JNull);
    ("viewTime", JNull); ("timeLastView", JNull);
    ("externalOpportunity",
     JObj [ ("externalAccountId", JNull); ("externalOpportunityId", JNull);
            ("externalAccountName", JNull); ("externalOpportunityName", JNull) ]);
    ("demoUuid", JNull) ].

End Pandas.

(** Vocabulary for the frames of [process_data]. *)
Module Frames.
Import APIClient DataProcessor Pandas.

(** The three steps of the cleaning pass that work cell by cell. *)
Definition clean_cell {lib : numerics} (c : cell lib) : cell lib :=
  replace_nan lib (astype_str_strip lib (replace_null lib c)).

(** The dtype of the column [c] of the frame built from [rows]. *)
Definition kinds (rows : list row) (c : string) : kind :=
  infer (map (dict_get c) rows).

(** The rows that [dropna(how='all')] keeps. *)
Definition kept (rows : list row) : list row :=
  filter (fun r => negb (blank r)) rows.

(** The row of the cleaned frame for the row [r] of the records: [K] gives
    the dtypes of the columns and [all_int] says whether [viewTime] ends as
    an [int64] column. *)
Definition finished_row (lib : numerics) (K : string -> kind) (all_int : bool)
    (r : row) : list (cell lib) :=
  update lib 3 (to_numeric_cell lib all_int)
    (map (fun c => clean_cell (make_cell lib (K c) (dict_get c r))) Shapes.row_keys).

(** The float64 reading of the [viewTime] that the cleaned frame holds for
    the value [v] of the row: [None] is NaN. *)
Definition expected_view_time (lib : numerics) (v : json) : option (float lib) :=
  match v with
  | JNum z => Some (float_of_int lib z)
  | JStr s => number_as_float lib (parse_number lib (clean_string s))
  | _ => None
  end.

(** The row [f] of the cleaned frame holds what the cleaning pass makes of
    the row [r] of the records: under every key but [viewTime] the cleaned
    text, under [viewTime] a number of the frame or NaN. *)
Definition cleaned (lib : numerics) (r : row) (f : list (cell lib)) : Prop :=
  (forall k v, In (k, v) r -> k <> "viewTime" ->
     Tables.cell_at Shapes.row_keys f k = Some (Obj (JStr (clean_text v)))) /\
  (forall v, dict_get "viewTime" r = Some v ->
     option_map (as_float lib) (Tables.cell_at Shapes.row_keys f "viewTime")
     = Some (Some (expected_view_time lib v))).

(** A flattened row whose [organization] is the text nan and whose
    [viewTime] is the word null. *)
Definition nan_row : row :=
  [ ("senddemoUuid", JStr "A1"); ("demoboardName", JStr "Board");
    ("organization", JStr "nan"); ("viewTime", JStr "null");
    ("timeLastView", JStr "2025-01-01"); ("externalAccountId", JStr "X");
    ("externalOpportunityId", JStr ""); ("externalAccountName", JStr "");
    ("externalOpportunityName", JStr ""); ("demoUuids", JStr "d1") ].

(** A flattened row all of whose fields are the empty string. *)
Definition empty_row : row := map (fun k => (k, JStr "")) Shapes.row_keys.

Fixpoint all_chars (p : ascii -> bool) (s : string) : bool :=
  match s with
  | EmptyString => true
  | String a rest => p a && all_chars p rest
  end.

(** A character of the text of an integer. *)
Definition in_number (a : ascii) : bool :=
  Ascii.eqb a "-" || (Nat.leb 48 (nat_of_ascii a) && Nat.leb (nat_of_ascii a) 57).

(** Page 1 points to page 500, which is the last page. *)
Definition jump_server : server :=
  fun _ page =>
    match page with
    | JNum 1 => Runs.ok (Runs.page_body page [JStr "a"] 500)
    | JNum 500 => Runs.ok (Runs.page_body page [JStr "b"] 0)
    | _ => Response {| status_code := 404; json_body := None |}
    end.

(** Three flattened rows: an integer and then the word null under
    [viewTime]; the last row is entirely null. *)
Definition sample_rows : list row :=
  [ [ ("senddemoUuid", JStr " A1 "); ("demoboardName", JStr "Board");
      ("organization", JStr "None"); ("viewTime", JNum 42);
      ("timeLastView", JStr "2025-01-01"); ("externalAccountId", JStr "X");
      ("externalOpportunityId", JNull); ("externalAccountName", JStr " nan ");
      ("externalOpportunityName", JStr "null"); ("demoUuids", JStr "d1") ];
    [ ("senddemoUuid", JStr ""); ("demoboardName", JStr "Board");
      ("organization", JStr "Acme"); ("viewTime", JStr "null");
      ("timeLastView", JStr "2025-01-01"); ("externalAccountId", JStr "X");
      ("externalOpportunityId", JNull); ("externalAccountName", JStr "");
      ("externalOpportunityName", JStr ""); ("demoUuids", JStr "d2") ];
    [ ("senddemoUuid", JNull); ("demoboardName", JNull);
      ("organization", JNull); ("viewTime", JNull);
      ("timeLastView", JNull); ("externalAccountId", JNull);
      ("externalOpportunityId", JNull); ("externalAccountName", JNull);
      ("externalOpportunityName", JNull); ("demoUuids", JNull) ] ].

End Frames.

(** * Properties *)

(** ** Transport *)

Module TransportFacts.
Import APIClient.



End TransportFacts.

(** ** Paginator *)

Module PaginatorFacts.
Import APIClient Runs.

Lemma loop_body_advance d its next acc :
  page_value d its (Some (JNum next)) ->
  its <> [] -> next <> 0%Z -> (next <= 100)%Z ->
  loop_body (Ret d) acc = Continue (JNum next) (acc ++ its).
Proof.
  intros (kvs & pg & -> & Hi & Hp & Hn) Hne H0 H100.
  unfold loop_body; simpl. rewrite Hi, Hp; simpl.
  destruct its as [|x its]; [congruence|]. simpl.
  destruct (dict_get "countItems" pg); rewrite Hn; simpl;
    (replace (next =? 0)%Z with false by (symmetry; apply Z.eqb_neq; lia));
    (replace (100 <? next)%Z with false by (symmetry; apply Z.ltb_ge; lia));
    reflexivity.
Qed.

Lemma loop_body_final d its acc :
  final_page d its -> its <> [] ->
  loop_body (Ret d) acc = Break (acc ++ its).
Proof.
  intros Hf Hne.
  destruct Hf as [H|[H|H]]; destruct H as (kvs & pg & -> & Hi & Hp & Hn);
    unfold loop_body; simpl; rewrite Hi, Hp; simpl;
    (destruct its as [|x its]; [congruence|]); simpl;
    destruct (dict_get "countItems" pg); rewrite Hn; reflexivity.
Qed.

Lemma loop_body_empty kvs acc :
  dict_get "items" kvs = Some (JArr []) ->
  loop_body (Ret (JObj kvs)) acc = Break acc.
Proof.
  intros Hi. unfold loop_body; simpl. rewrite Hi.
  destruct (dict_get "paging" kvs); reflexivity.
Qed.

Lemma loop_body_failure acc : loop_body (Ret JNull) acc = Break acc.
Proof. reflexivity. Qed.

(** Going through the pages of a script takes one pass each and leaves the
    loop asking for the page the last one pointed to. *)
Lemma fetch_loop_follows srv (s : script) :
  forall fuel page acc asked,
    follows srv (List.length asked) page s -> advancing s ->
    fetch_loop srv (List.length s + fuel) page acc asked
    = fetch_loop srv fuel (cursor page s) (acc ++ items_of s)
        (asked ++ asked_pages page s).
Proof.
  induction s as [|[its next] rest IH]; intros fuel page acc asked Hf Ha.
  - simpl. unfold items_of; simpl. now rewrite !app_nil_r.
  - destruct Hf as [(d & Hd & Hp) Hrest].
    inversion Ha as [|? ? (Hne & H0 & H100) Ha']; subst. simpl in Hne, H0, H100.
    cbn [List.length Nat.add fetch_loop].
    unfold serves in Hd. rewrite Hd.
    rewrite (loop_body_advance _ _ _ _ Hp Hne H0 H100).
    rewrite IH; [|now rewrite length_app, Nat.add_1_r|assumption].
    unfold items_of; simpl. now rewrite <- !app_assoc.
Qed.

Lemma asked_pages_length page (s : script) :
  List.length (asked_pages page s) = List.length s.
Proof.
  revert page; induction s as [|[its next] rest IH]; intros page; simpl; auto.
Qed.

End PaginatorFacts.

Module Paginator.
Import APIClient Runs PaginatorFacts.

Lemma fetch_loop_more_fuel srv fuel :
  forall k page acc asked o,
    fetch_loop srv fuel page acc asked = Some o ->
    fetch_loop srv (fuel + k) page acc asked = Some o.
Proof.
  induction fuel as [|fuel IH]; intros k page acc asked o H; [discriminate|].
  cbn [Nat.add fetch_loop] in *.
  destruct (loop_body _ acc); auto.
Qed.

(** A run that stops leaves the same outcome whatever fuel it was given. *)
Lemma get_all_deterministic srv fuel fuel' o o' :
  get_all_consensus_data srv fuel = Some o ->
  get_all_consensus_data srv fuel' = Some o' ->
  o = o'.
Proof.
  unfold get_all_consensus_data. intros H H'.
  apply (fetch_loop_more_fuel _ _ fuel') in H.
  apply (fetch_loop_more_fuel _ _ fuel) in H'.
  rewrite (Nat.add_comm fuel' fuel) in H'. congruence.
Qed.

(** A run through a script, followed by one more pass that breaks. *)
Lemma run_then_break srv (s : script) d acc' fuel :
  follows srv 0 (JNum 1) s -> advancing s ->
  serves srv (List.length s) (cursor (JNum 1) s) d ->
  loop_body (Ret d) (items_of s) = Break acc' ->
  List.length s < fuel ->
  get_all_consensus_data srv fuel
  = Some {| returned := Some acc';
            requested := asked_pages (JNum 1) s ++ [cursor (JNum 1) s] |}.
Proof.
  intros Hf Ha Hd Hb Hfuel.
  replace fuel with (List.length s + S (fuel - S (List.length s))) by lia.
  unfold get_all_consensus_data.
  rewrite fetch_loop_follows by assumption.
  cbn [fetch_loop]. simpl app.
  rewrite asked_pages_length. unfold serves in Hd. rewrite Hd, Hb. reflexivity.
Qed.

(** Pages 1 and 2 of the cycle both hold an item and a positive cursor. *)
Lemma cyclic_server_pages n page :
  exists d its next,
    serves cyclic_server n page d /\
    page_value d its (Some (JNum next)) /\ its <> [] /\ (0 < next)%Z.
Proof.
  assert (E : page = JNum 1 \/ page <> JNum 1).
  { destruct page as [| |z| | |]; try (right; discriminate).
    destruct (Z.eq_dec z 1) as [->|]; [now left|right; congruence]. }
  destruct E as [->|Hne].
  - exists (JObj [ ("items", JArr [JStr "r1"]);
                   ("paging",
                    JObj [ ("page", JNum 1); ("countItems", JNum 1);
                           ("nextPage", JNum 2); ("limit", JNum 500) ]) ]),
           [JStr "r1"], 2%Z.
    split; [reflexivity|]. split; [|split; [discriminate|lia]].
    do 2 eexists. repeat split; reflexivity.
  - exists (JObj [ ("items", JArr [JStr "r2"]);
                   ("paging",
                    JObj [ ("page", page); ("countItems", JNum 1);
                           ("nextPage", JNum 1); ("limit", JNum 500) ]) ]),
           [JStr "r2"], 1%Z.
    split; [|split; [|split; [discriminate|lia]]].
    + unfold serves, cyclic_server.
      destruct page as [| |z| | |]; try reflexivity.
      destruct z as [|p|p]; try reflexivity.
      destruct p; try reflexivity. congruence.
    + do 2 eexists. repeat split; reflexivity.
Qed.

Lemma cyclic_loop_runs fuel :
  forall page acc asked,
    page = JNum 1 \/ page = JNum 2 ->
    fetch_loop cyclic_server fuel page acc asked = None.
Proof.
  induction fuel as [|fuel IH]; intros page acc asked Hp; [reflexivity|].
  destruct Hp as [->| ->]; cbn; apply IH; auto.
Qed.

(** C1: a safety bound of 100 page advances would stop every run over a
    cursor cycle. The code bounds the page NUMBER instead (line 178,
    [page > 100]), so on the cycle 1 -> 2 -> 1, where every page holds an
    item and reports a positive [nextPage], the loop is still running after
    any number of passes. *)
Theorem cursor_cycle_never_stops :
  (forall n page, exists d its next,
      serves cyclic_server n page d /\
      page_value d its (Some (JNum next)) /\ its <> [] /\ (0 < next)%Z) /\
  forall fuel, get_all_consensus_data cyclic_server fuel = None.
Proof.
  split; [exact cyclic_server_pages|].
  intros fuel. apply cyclic_loop_runs. now left.
Qed.

(** Where the server numbers its pages 1, 2, 3, ... the page-number bound
    does stop the run after 100 requests, page 101 never being asked for. *)
Lemma page_limit_on_sequential_cursor :
  exists o,
    get_all_consensus_data (sequential_server 1000) 100 = Some o /\
    requested o = map (fun n => JNum (Z.of_nat n)) (seq 1 100) /\
    returned o = Some (map (fun n => JNum (Z.of_nat n)) (seq 1 100)).
Proof. eexists. split; [vm_compute; reflexivity|]. split; reflexivity. Qed.

(** C2 (as stated, refuted): the run whose third request fails and the run
    that ends normally after the same two pages return the same value, so
    nothing a caller computes from the returned value tells them apart: no
    partial-failure flag comes with the items. *)
Lemma no_partial_failure_flag :
  get_consensus_data_with_pagination (failing_third 2 (JNum 3)) = Ret JNull /\
  exists o o',
    get_all_consensus_data failing_third 3 = Some o /\
    get_all_consensus_data two_pages 3 = Some o' /\
    returned o = Some [JStr "a"; JStr "b"; JStr "c"] /\
    requested o = [JNum 1; JNum 2; JNum 3] /\
    requested o' = [JNum 1; JNum 2] /\
    forall (B : Type) (branch : option (list json) -> B),
      branch (returned o) = branch (returned o').
Proof.
  split; [reflexivity|].
  do 2 eexists. split; [reflexivity|]. split; [reflexivity|].
  repeat split; reflexivity.
Qed.

(** C2 (as amended): when the transport fails on the request that follows
    at least one successfully fetched page (every earlier page non-empty,
    its [nextPage] an integer other than 0 and at most 100), the paginator
    stops at that request and returns the concatenation of the earlier
    pages' items as a plain list. No flag is attached: the value is the one
    returned by a run in which that request is answered by an empty page. *)
Theorem transport_failure_returns_partial srv (s : script) fuel :
  s <> [] ->
  follows srv 0 (JNum 1) s -> advancing s ->
  serves srv (List.length s) (cursor (JNum 1) s) JNull ->
  List.length s < fuel ->
  get_all_consensus_data srv fuel
  = Some {| returned := Some (items_of s);
            requested := asked_pages (JNum 1) s ++ [cursor (JNum 1) s] |} /\
  forall srv' kvs,
    follows srv' 0 (JNum 1) s ->
    serves srv' (List.length s) (cursor (JNum 1) s) (JObj kvs) ->
    dict_get "items" kvs = Some (JArr []) ->
    get_all_consensus_data srv' fuel = get_all_consensus_data srv fuel.
Proof.
  intros _ Hf Ha Hd Hfuel.
  assert (E : get_all_consensus_data srv fuel
              = Some {| returned := Some (items_of s);
                        requested := asked_pages (JNum 1) s ++ [cursor (JNum 1) s] |})
    by (eapply run_then_break; eauto using loop_body_failure).
  split; [exact E|].
  intros srv' kvs Hf' Hd' Hi. rewrite E.
  eapply run_then_break; eauto using loop_body_empty.
Qed.

Lemma transport_failure_returns_partial_witness :
  get_all_consensus_data failing_third 5
  = Some {| returned := Some [JStr "a"; JStr "b"; JStr "c"];
            requested := [JNum 1; JNum 2; JNum 3] |}.
Proof.
  refine (proj1 (transport_failure_returns_partial failing_third
                   [([JStr "a"; JStr "b"], 2%Z); ([JStr "c"], 3%Z)] 5 _ _ _ _ _)).
  - discriminate.
  - simpl. repeat split;
      (eexists; split; [reflexivity|]; do 2 eexists; repeat split; reflexivity).
  - repeat constructor; simpl; (discriminate || lia).
  - reflexivity.
  - simpl. lia.
Defined.

(** The page limit on a long run: a server with pages 1..101, every page holding
    one item, page 101 the first to report [nextPage = 0]. The run stops
    after 100 requests with the items of pages 1..100; page 101 is never
    fetched. *)
Lemma page_limit_cuts_long_run :
  (forall n p, (1 <= p <= 101)%Z ->
     exists d, serves (sequential_server 101) n (JNum p) d /\
       page_value d [JNum p] (Some (JNum (if (p <? 101)%Z then p + 1 else 0)))) /\
  get_all_consensus_data (sequential_server 101) 100 <> None /\
  forall fuel o,
    get_all_consensus_data (sequential_server 101) fuel = Some o ->
    requested o = map (fun n => JNum (Z.of_nat n)) (seq 1 100) /\
    returned o = Some (map (fun n => JNum (Z.of_nat n)) (seq 1 100)).
Proof.
  assert (R : get_all_consensus_data (sequential_server 101) 100
              = Some {| returned := Some (map (fun n => JNum (Z.of_nat n)) (seq 1 100));
                        requested := map (fun n => JNum (Z.of_nat n)) (seq 1 100) |})
    by (vm_compute; reflexivity).
  split; [|split].
  - intros n p Hp.
    exists (JObj [ ("items", JArr [JNum p]);
                   ("paging",
                    JObj [ ("page", JNum p); ("countItems", JNum 1);
                           ("nextPage", JNum (if (p <? 101)%Z then p + 1 else 0));
                           ("limit", JNum 500) ]) ]).
    split; [|do 2 eexists; repeat split; reflexivity].
    unfold serves, sequential_server.
    replace ((1 <=? p) && (p <=? 101))%Z with true
      by (symmetry; apply andb_true_iff; lia).
    reflexivity.
  - rewrite R. discriminate.
  - intros fuel o H.
    rewrite (get_all_deterministic _ _ _ _ _ H R). split; reflexivity.
Qed.

(** Following the cursor: when the pages arrive in the order 1..k, each with at
    least one item, pages 1..k-1 report an integer [nextPage] other than 0
    and at most 100, and page k is the first to report [nextPage] 0, null or
    absent, the paginator stops after exactly k requests and returns the
    items of the k pages, concatenated in arrival order. *)
Theorem stops_at_final_page srv (s : script) d its fuel :
  follows srv 0 (JNum 1) s -> advancing s ->
  serves srv (List.length s) (cursor (JNum 1) s) d ->
  final_page d its -> its <> [] ->
  List.length s < fuel ->
  exists o,
    get_all_consensus_data srv fuel = Some o /\
    returned o = Some (items_of s ++ its) /\
    requested o = asked_pages (JNum 1) s ++ [cursor (JNum 1) s] /\
    List.length (requested o) = S (List.length s).
Proof.
  intros Hf Ha Hd Hfin Hne Hfuel.
  eexists. split; [eapply run_then_break; eauto using loop_body_final|].
  simpl. repeat split.
  rewrite length_app, asked_pages_length. simpl. lia.
Qed.

Lemma stops_at_final_page_witness :
  exists o,
    get_all_consensus_data two_pages 5 = Some o /\
    returned o = Some ([JStr "a"; JStr "b"] ++ [JStr "c"]) /\
    requested o = [JNum 1] ++ [JNum 2] /\
    List.length (requested o) = 2.
Proof.
  refine (stops_at_final_page two_pages [([JStr "a"; JStr "b"], 2%Z)]
            (JObj [ ("items", JArr [JStr "c"]);
                    ("paging",
                     JObj [ ("page", JNum 2); ("countItems", JNum 1);
                            ("nextPage", JNum 0); ("limit", JNum 500) ]) ])
            [JStr "c"] 5 _ _ _ _ _ _).
  - simpl. repeat split.
    eexists; split; [reflexivity|]; do 2 eexists; repeat split; reflexivity.
  - repeat constructor; simpl; (discriminate || lia).
  - reflexivity.
  - right; right. do 2 eexists. repeat split; reflexivity.
  - discriminate.
  - simpl. lia.
Defined.

(** C6: when a successful page comes back with an empty item list, after
    any number of pages that the loop followed, the paginator stops there:
    the empty page is the last request whatever [nextPage] it carries, and
    the value returned holds the items of the earlier pages only (no item at
    all when the empty page is the first). *)
Theorem empty_page_stops srv (s : script) kvs fuel :
  follows srv 0 (JNum 1) s -> advancing s ->
  serves srv (List.length s) (cursor (JNum 1) s) (JObj kvs) ->
  dict_get "items" kvs = Some (JArr []) ->
  List.length s < fuel ->
  get_all_consensus_data srv fuel
  = Some {| returned := Some (items_of s);
            requested := asked_pages (JNum 1) s ++ [cursor (JNum 1) s] |}.
Proof.
  intros Hf Ha Hd Hi Hfuel.
  eapply run_then_break; eauto using loop_body_empty.
Qed.

Lemma empty_page_stops_witness :
  get_all_consensus_data (fun _ page => ok (page_body page [] 2)) 1
  = Some {| returned := Some []; requested := [JNum 1] |}.
Proof.
  refine (empty_page_stops (fun _ page => ok (page_body page [] 2)) []
            [ ("items", JArr []);
              ("paging",
               JObj [ ("page", JNum 1); ("countItems", JNum 0);
                      ("nextPage", JNum 2); ("limit", JNum 500) ]) ] 1 _ _ _ _ _).
  - exact I.
  - constructor.
  - reflexivity.
  - reflexivity.
  - simpl. lia.
Defined.

End Paginator.

(** ** Transport: shape of the response *)

Module Transport.
Import APIClient TransportFacts.




End Transport.

(** ** Flattener *)

Module Flattener.
Import DataProcessor Tables.

Lemma dict_get_set_same key v kvs :
  dict_get key (dict_set key v kvs) = Some v.
Proof.
  induction kvs as [|[k w] rest IH]; simpl.
  - now rewrite String.eqb_refl.
  - destruct (String.eqb key k) eqn:E; simpl; rewrite E; auto.
Qed.

Lemma dict_get_set_other key key' v kvs :
  key <> key' ->
  dict_get key (dict_set key' v kvs) = dict_get key kvs.
Proof.
  intros Hne. apply String.eqb_neq in Hne.
  induction kvs as [|[k w] rest IH]; simpl.
  - now rewrite Hne.
  - destruct (String.eqb key' k) eqn:E; simpl.
    + apply String.eqb_eq in E; subst k. now rewrite Hne.
    + now rewrite IH.
Qed.

Lemma py_get_obj kvs key default :
  py_get (JObj kvs) key default = Ret (field_or key default kvs).
Proof. unfold py_get, field_or. now destruct (dict_get key kvs). Qed.

Lemma enumerate_rows_length info ids :
  forall i, List.length (enumerate_rows info i ids) = List.length ids.
Proof. induction ids as [|x ids IH]; intros i; simpl; auto. Qed.

Lemma enumerate_rows_ids info ids :
  forall i, map (dict_get "demoUuids") (enumerate_rows info i ids) = map Some ids.
Proof.
  induction ids as [|x ids IH]; intros i; simpl; [reflexivity|].
  rewrite IH. f_equal.
  destruct (Nat.eqb i 0); apply dict_get_set_same.
Qed.

Lemma enumerate_rows_senddemoUuid info ids :
  forall i j r,
    nth_error (enumerate_rows info i ids) j = Some r ->
    dict_get "senddemoUuid" r
    = if Nat.eqb (i + j) 0 then dict_get "senddemoUuid" info else Some (JStr "").
Proof.
  induction ids as [|x ids IH]; intros i j r H.
  - destruct j; discriminate.
  - destruct j as [|j]; simpl in H.
    + injection H as <-. rewrite Nat.add_0_r.
      destruct (Nat.eqb i 0).
      * apply dict_get_set_other. discriminate.
      * rewrite dict_get_set_other by discriminate. apply dict_get_set_same.
    + apply IH in H. rewrite H.
      replace (S i + j) with (i + S j) by lia.
      destruct (i + S j) eqn:E; [lia|reflexivity].
Qed.

Lemma expand_record_obj fields :
  opportunity_ok fields ->
  exists o,
    field_or "externalOpportunity" (JObj []) fields = JObj o /\
    expand_record (JObj fields)
    = if truthy (field_or "demoUuids" (JArr []) fields)
      then ids <- py_iter (field_or "demoUuids" (JArr []) fields) ;;
           Ret (enumerate_rows (base_info fields o) 0 ids)
      else Ret [dict_set "demoUuids" (field_or "demoUuid" (JStr "") fields)
                  (base_info fields o)].
Proof.
  intros Hopp.
  assert (E : exists o, field_or "externalOpportunity" (JObj []) fields = JObj o).
  { unfold field_or. destruct Hopp as [-> | [o ->]]; eauto. }
  destruct E as [o E]. exists o. split; [exact E|].
  unfold expand_record. rewrite !py_get_obj. cbn [bind].
  rewrite E, !py_get_obj. cbn [bind]. reflexivity.
Qed.

Lemma processed_records_rows data rowss :
  Forall2 (fun record rows => expand_record record = Ret rows) data rowss ->
  processed_records data = Ret (List.concat rowss).
Proof.
  induction 1 as [|record rows data rowss E _ IH]; simpl; [reflexivity|].
  now rewrite E, IH.
Qed.

(** The frame [process_data] returns is the cleaned frame of the rows the
    records append, in record order. *)
Lemma process_data_rows {Frame} (frame : list row -> Frame) clean data rowss :
  data <> [] ->
  Forall2 (fun record rows => expand_record record = Ret rows) data rowss ->
  process_data Frame frame clean data
  = match clean (frame (List.concat rowss)) with
    | Ret df => df
    | Raise _ => frame []
    end.
Proof.
  intros Hne H. unfold process_data.
  destruct data as [|record data]; [congruence|].
  now rewrite (processed_records_rows _ _ H).
Qed.

(** A record whose [externalOpportunity] is null makes the loop raise. *)
Lemma null_opportunity_raises :
  expand_record (JObj [ ("externalOpportunity", JNull) ]) = Raise AttributeError.
Proof. reflexivity. Qed.

(** In the expansion loop: a record with two session ids and no
    [senddemoUuid] gives two rows, and the first row has the empty string
    under [senddemoUuid] like the second. *)
Lemma first_row_can_be_empty :
  exists r1 r2,
    expand_record (JObj [ ("demoUuids", JArr [ JStr "d1"; JStr "d2" ]) ])
    = Ret [r1; r2] /\
    dict_get "senddemoUuid" r1 = Some (JStr "") /\
    dict_get "senddemoUuid" r2 = Some (JStr "").
Proof. do 2 eexists. split; [reflexivity|]. split; reflexivity. Qed.

(** In the expansion loop: a record whose [demoUuids] is a non-empty list of N ids
    appends exactly N rows, the i-th row carrying the i-th id under
    [demoUuids]; the first row carries the record's [senddemoUuid] (the
    empty string when the record has none) and every row with index > 0 has
    the empty string there. So [senddemoUuid] is non-empty on exactly the
    first row whenever the record's own [senddemoUuid] is not the empty
    string. *)
Theorem one_row_per_session fields ids :
  opportunity_ok fields ->
  dict_get "demoUuids" fields = Some (JArr ids) ->
  ids <> [] ->
  exists rows,
    expand_record (JObj fields) = Ret rows /\
    List.length rows = List.length ids /\
    map (dict_get "demoUuids") rows = map Some ids /\
    forall i r,
      nth_error rows i = Some r ->
      dict_get "senddemoUuid" r
      = Some (if Nat.eqb i 0 then field_or "senddemoUuid" (JStr "") fields
              else JStr "").
Proof.
  intros Hopp Hids Hne.
  destruct (expand_record_obj fields Hopp) as (o & _ & E).
  assert (F : field_or "demoUuids" (JArr []) fields = JArr ids)
    by (unfold field_or; now rewrite Hids).
  rewrite F in E. destruct ids as [|x ids]; [congruence|].
  cbn [truthy py_iter bind] in E.
  eexists. split; [exact E|]. split; [apply enumerate_rows_length|].
  split; [apply enumerate_rows_ids|].
  intros i r H. apply enumerate_rows_senddemoUuid in H. rewrite H.
  cbn [Nat.add]. destruct (Nat.eqb i 0); reflexivity.
Qed.

Lemma one_row_per_session_witness :
  exists rows,
    expand_record (JObj scenario_record) = Ret rows /\
    List.length rows = 2 /\
    map (dict_get "demoUuids") rows = [ Some (JStr "d1"); Some (JStr "d2") ] /\
    forall i r,
      nth_error rows i = Some r ->
      dict_get "senddemoUuid" r
      = Some (if Nat.eqb i 0 then field_or "senddemoUuid" (JStr "") scenario_record
              else JStr "").
Proof.
  refine (one_row_per_session scenario_record [ JStr "d1"; JStr "d2" ] _ _ _).
  - right. eexists. reflexivity.
  - reflexivity.
  - discriminate.
Defined.

(** In the expansion loop: a record whose [demoUuids] is empty or absent appends exactly one
    row, whose [demoUuids] cell is the record's [demoUuid] (the empty string
    when the record has none); and every RawRecord appends at least one
    row. *)
Theorem fallback_row fields :
  opportunity_ok fields ->
  (dict_get "demoUuids" fields = None \/
   dict_get "demoUuids" fields = Some (JArr []) ->
   exists r,
     expand_record (JObj fields) = Ret [r] /\
     dict_get "demoUuids" r = Some (field_or "demoUuid" (JStr "") fields)) /\
  (raw_record fields ->
   exists rows, expand_record (JObj fields) = Ret rows /\ 1 <= List.length rows).
Proof.
  intros Hopp.
  destruct (expand_record_obj fields Hopp) as (o & _ & E).
  assert (One : field_or "demoUuids" (JArr []) fields = JArr [] ->
                exists r,
                  expand_record (JObj fields) = Ret [r] /\
                  dict_get "demoUuids" r = Some (field_or "demoUuid" (JStr "") fields)).
  { intros F. rewrite F in E. cbn [truthy] in E.
    eexists. split; [exact E|]. apply dict_get_set_same. }
  split.
  - intros H. apply One. unfold field_or. now destruct H as [-> | ->].
  - intros [_ [Habs | [ids Hids]]].
    + destruct One as (r & Er & _); [unfold field_or; now rewrite Habs|].
      exists [r]. split; [exact Er|]. simpl. lia.
    + assert (F : field_or "demoUuids" (JArr []) fields = JArr ids)
        by (unfold field_or; now rewrite Hids).
      destruct ids as [|x ids].
      * destruct (One F) as (r & Er & _).
        exists [r]. split; [exact Er|]. simpl. lia.
      * rewrite F in E. cbn [truthy py_iter bind] in E.
        eexists. split; [exact E|]. simpl. lia.
Qed.

Lemma fallback_row_witness :
  (exists r,
     expand_record (JObj [ ("senddemoUuid", JStr "A1"); ("demoUuid", JStr "d0") ])
     = Ret [r] /\
     dict_get "demoUuids" r
     = Some (field_or "demoUuid" (JStr "")
               [ ("senddemoUuid", JStr "A1"); ("demoUuid", JStr "d0") ])) /\
  (exists rows,
     expand_record (JObj [ ("senddemoUuid", JStr "A1"); ("demoUuid", JStr "d0") ])
     = Ret rows /\ 1 <= List.length rows).
Proof.
  destruct (fallback_row [ ("senddemoUuid", JStr "A1"); ("demoUuid", JStr "d0") ])
    as [H1 H2].
  - left. reflexivity.
  - split.
    + apply H1. left. reflexivity.
    + apply H2. split; left; reflexivity.
Defined.

End Flattener.

(** ** Projector *)

Module Projector.
Import DataProcessor Tables.

Section Selection.

Context {cell : Type}.
Implicit Types (df : DataFrame cell) (r : list cell).

Lemma has_column_In df col : has_column df col = true <-> In col (columns df).
Proof.
  unfold has_column. rewrite existsb_exists. split.
  - intros (l & Hl & E). apply String.eqb_eq in E. now subst.
  - intros H. exists col. split; [exact H|apply String.eqb_refl].
Qed.

Lemma positions_absent col labels :
  forall k, ~ In col labels -> positions col k labels = [].
Proof.
  induction labels as [|l rest IH]; intros k Hn; simpl; [reflexivity|].
  destruct (String.eqb col l) eqn:E.
  - apply String.eqb_eq in E. subst. exfalso. apply Hn. now left.
  - apply IH. intros H. apply Hn. now right.
Qed.

(** With distinct labels, a label that is present sits in one position. *)
Lemma positions_single col labels :
  NoDup labels -> In col labels ->
  exists i,
    index_of col labels = Some i /\
    nth_error labels i = Some col /\
    forall k, positions col k labels = [k + i].
Proof.
  induction labels as [|l rest IH]; intros Hnd Hin; [destruct Hin|].
  inversion Hnd as [|? ? Hl Hrest]; subst. simpl.
  destruct (String.eqb col l) eqn:E.
  - apply String.eqb_eq in E. subst l. exists 0. repeat split.
    intros k. rewrite positions_absent by assumption. now rewrite Nat.add_0_r.
  - destruct Hin as [->|Hin]; [now rewrite String.eqb_refl in E|].
    destruct (IH Hrest Hin) as (i & Hi & Hn & Hp).
    exists (S i). rewrite Hi. repeat split; [exact Hn|].
    intros k. rewrite Hp. f_equal. lia.
Qed.

Lemma take_cells_app r ps qs :
  take_cells r (ps ++ qs) = take_cells r ps ++ take_cells r qs.
Proof. unfold take_cells. apply flat_map_app. Qed.

(** Selecting present labels from a frame with distinct labels yields those
    labels, and from each row the cells under them, in the order asked. *)
Lemma selection labels cols :
  NoDup labels ->
  (forall c, In c cols -> In c labels) ->
  let ps := flat_map (fun col => positions col 0 labels) cols in
  map (fun p => nth p labels "") ps = cols /\
  forall r, List.length r = List.length labels ->
    map Some (take_cells r ps) = map (cell_at labels r) cols.
Proof.
  intros Hnd. induction cols as [|c cols IH]; intros Hin ps.
  - split; [reflexivity|]. intros r _. reflexivity.
  - destruct (positions_single c labels Hnd (Hin c (or_introl eq_refl)))
      as (i & Hi & Hn & Hp).
    destruct IH as [IHl IHv]; [intros x Hx; apply Hin; now right|].
    subst ps. cbn [flat_map]. rewrite Hp. cbn [Nat.add app map]. split.
    + rewrite IHl. f_equal. now apply nth_error_nth.
    + intros r Hlen.
      change (i :: ?t) with ([i] ++ t). rewrite take_cells_app, map_app.
      rewrite IHv by assumption. cbn [map]. unfold cell_at at 2. rewrite Hi.
      assert (Hlt : i < List.length r).
      { rewrite Hlen. apply nth_error_Some. congruence. }
      apply nth_error_Some in Hlt.
      unfold take_cells. simpl.
      destruct (nth_error r i); [reflexivity|congruence].
Qed.

Lemma available_present df c :
  In c (filter (has_column df) summary_columns) -> In c (columns df).
Proof. intros H. apply filter_In in H. now apply has_column_In. Qed.

(** The summary of a non-empty frame that has at least one summary column:
    the present summary columns in table order under their exported names,
    and the rows cut down to the cells under those columns. *)
Lemma summary_of_available df :
  well_formed df -> empty df = false ->
  filter (has_column df) summary_columns <> [] ->
  columns (create_summary_csv df)
  = map (renamed column_mapping) (filter (has_column df) summary_columns) /\
  map (map Some) (values (create_summary_csv df))
  = map (fun r => map (cell_at (columns df) r)
                    (filter (has_column df) summary_columns)) (values df).
Proof.
  intros [Hnd Hrows] Hemp Hav.
  unfold create_summary_csv. rewrite Hemp.
  destruct (filter (has_column df) summary_columns) as [|a av] eqn:Eav;
    [congruence|].
  rewrite <- Eav in *. clear Hav.
  unfold getitem.
  replace (forallb (has_column df) (filter (has_column df) summary_columns))
    with true.
  2:{ symmetry. apply forallb_forall. intros x Hx. now apply filter_In in Hx. }
  cbn [bind rename columns values].
  destruct (selection (columns df) _ Hnd (available_present df)) as [Hl Hv].
  split.
  - now rewrite Hl.
  - rewrite !map_map. apply map_ext_in. intros r Hr.
    apply Hv. rewrite Forall_forall in Hrows. now apply Hrows.
Qed.

Lemma filter_all {A} (f : A -> bool) (l : list A) :
  (forall x, In x l -> f x = true) -> filter f l = l.
Proof.
  induction l as [|x l IH]; intros H; simpl; [reflexivity|].
  rewrite (H x (or_introl eq_refl)). f_equal. apply IH. intros y Hy.
  apply H. now right.
Qed.

Lemma filter_none {A} (f : A -> bool) (l : list A) :
  (forall x, In x l -> f x = false) -> filter f l = [].
Proof.
  induction l as [|x l IH]; intros H; simpl; [reflexivity|].
  rewrite (H x (or_introl eq_refl)). apply IH. intros y Hy. apply H. now right.
Qed.

End Selection.

(** The exported names are new: no summary source label is among them, and
    two source labels never share one. *)
Lemma renamed_summary c x :
  In c summary_columns -> In x summary_columns ->
  renamed column_mapping x <> c /\
  (renamed column_mapping x = renamed column_mapping c -> x = c).
Proof.
  intros Hc Hx. simpl in Hc, Hx.
  repeat (destruct Hc as [<-|Hc]); try contradiction;
    repeat (destruct Hx as [<-|Hx]); try contradiction;
    (split; [discriminate|]); intros E; (reflexivity || discriminate E).
Qed.

(** C8 (as stated, refuted): a frame with the single column [foo] and no
    row has none of the six source columns, and the projector answers with a
    fresh frame without columns, not with its input. *)
Lemma empty_input_not_returned :
  (forall c, In c summary_columns -> ~ In c (columns (no_rows "foo"))) /\
  create_summary_csv (no_rows "foo") = new_frame /\
  create_summary_csv (no_rows "foo") <> no_rows "foo".
Proof.
  split; [|split; [reflexivity|discriminate]].
  intros c Hc [E|[]]. subst c. simpl in Hc.
  repeat (destruct Hc as [Hc|Hc]; [discriminate Hc|]). exact Hc.
Qed.

(** C8 (as amended): for a frame with at least one row in which all six
    source columns are present, the summary has exactly the six columns
    under their exported names in the order of the table, and its rows are
    the rows of the input, in the same order and number, each cut down to
    the cells under the six columns; for a frame that is not empty (at least
    one row and one column) and has none of the six source columns, the
    summary is the input as it is. *)
Theorem summary_projection {cell : Type} (df : DataFrame cell) :
  (well_formed df -> values df <> [] ->
   (forall c, In c summary_columns -> In c (columns df)) ->
   columns (create_summary_csv df)
   = [ "Demoboard_ID"; "Demo_IDs"; "Salesforce_External_AccountId";
       "Salesforce_External_OppId"; "View_Time_Seconds"; "Demoboard_View_Date" ] /\
   List.length (values (create_summary_csv df)) = List.length (values df) /\
   map (map Some) (values (create_summary_csv df))
   = map (fun r => map (cell_at (columns df) r) summary_columns) (values df)) /\
  (empty df = false ->
   (forall c, In c summary_columns -> ~ In c (columns df)) ->
   create_summary_csv df = df).
Proof.
  split.
  - intros Hwf Hrows Hall.
    assert (Hav : filter (has_column df) summary_columns = summary_columns).
    { apply filter_all. intros x Hx. apply has_column_In. now apply Hall. }
    assert (Hemp : empty df = false).
    { unfold empty. destruct (columns df) eqn:Ec.
      - exfalso. apply (Hall "senddemoUuid"). now left.
      - destruct (values df); congruence. }
    destruct (summary_of_available df Hwf Hemp) as [Hc Hv];
      [rewrite Hav; discriminate|].
    rewrite Hav in Hc, Hv. split; [exact Hc|]. split; [|exact Hv].
    apply (f_equal (@List.length _)) in Hv. now rewrite !length_map in Hv.
  - intros Hemp Hnone. unfold create_summary_csv. rewrite Hemp.
    rewrite filter_none; [reflexivity|].
    intros x Hx. destruct (has_column df x) eqn:E; [|reflexivity].
    apply has_column_In in E. now apply Hnone in E.
Qed.

Lemma summary_projection_witness :
  (columns (create_summary_csv sample_frame)
   = [ "Demoboard_ID"; "Demo_IDs"; "Salesforce_External_AccountId";
       "Salesforce_External_OppId"; "View_Time_Seconds"; "Demoboard_View_Date" ] /\
   List.length (values (create_summary_csv sample_frame)) = 3 /\
   map (map Some) (values (create_summary_csv sample_frame))
   = map (fun r => map (cell_at (columns sample_frame) r) summary_columns)
       (values sample_frame)) /\
  create_summary_csv foreign_frame = foreign_frame.
Proof.
  split.
  - refine (proj1 (summary_projection sample_frame) _ _ _).
    + split.
      * repeat constructor; simpl; intuition discriminate.
      * repeat constructor.
    + discriminate.
    + intros c Hc. simpl in Hc. simpl.
      repeat (destruct Hc as [<-|Hc]; [tauto|]). contradiction.
  - refine (proj2 (summary_projection foreign_frame) _ _).
    + reflexivity.
    + intros c Hc [E|[]]. subst c. simpl in Hc.
      repeat (destruct Hc as [Hc|Hc]; [discriminate Hc|]). exact Hc.
Defined.

(** C10 (as stated, refuted): a frame with the column [viewTime] and no row
    has one of the six source columns and lacks another, and its summary has
    no column at all: [View_Time_Seconds] is not there. *)
Lemma empty_input_loses_columns :
  In "viewTime" summary_columns /\
  In "viewTime" (columns (no_rows "viewTime")) /\
  ~ In "senddemoUuid" (columns (no_rows "viewTime")) /\
  columns (create_summary_csv (no_rows "viewTime")) = [] /\
  ~ In "View_Time_Seconds" (columns (create_summary_csv (no_rows "viewTime"))).
Proof.
  split; [simpl; tauto|]. split; [now left|].
  split; [intros [E|[]]; discriminate E|].
  split; [reflexivity|]. intros [].
Qed.

(** C10 (as amended): for a frame that is not empty and has at least one of
    the six source columns, the summary holds the source columns that are
    present, in table order and under their exported names, with the rows of
    the input in the same order and number cut down to those columns; a
    source column that is missing has no column in the summary, and the
    summary is not the input (the degenerate branch is not taken). *)
Theorem partial_projection {cell : Type} (df : DataFrame cell) :
  well_formed df -> empty df = false ->
  (exists c, In c summary_columns /\ In c (columns df)) ->
  columns (create_summary_csv df)
  = map (renamed column_mapping) (filter (has_column df) summary_columns) /\
  List.length (values (create_summary_csv df)) = List.length (values df) /\
  map (map Some) (values (create_summary_csv df))
  = map (fun r => map (cell_at (columns df) r)
                    (filter (has_column df) summary_columns)) (values df) /\
  (forall c, In c summary_columns -> ~ In c (columns df) ->
     ~ In (renamed column_mapping c) (columns (create_summary_csv df))) /\
  create_summary_csv df <> df.
Proof.
  intros Hwf Hemp (c0 & Hc0 & Hin0).
  assert (Hp0 : In c0 (filter (has_column df) summary_columns)).
  { apply filter_In. split; [exact Hc0|now apply has_column_In]. }
  destruct (summary_of_available df Hwf Hemp) as [Hc Hv].
  { intros E. rewrite E in Hp0. destruct Hp0. }
  split; [exact Hc|]. split.
  { apply (f_equal (@List.length _)) in Hv. now rewrite !length_map in Hv. }
  split; [exact Hv|]. split.
  - intros c Hcs Hmiss Hin. rewrite Hc in Hin.
    apply in_map_iff in Hin. destruct Hin as (x & Ex & Hx).
    assert (Hxs : In x summary_columns) by (apply filter_In in Hx; tauto).
    apply (renamed_summary c x Hcs Hxs) in Ex. subst x.
    apply Hmiss. now apply available_present.
  - intros E. rewrite E in Hc. rewrite Hc in Hin0.
    apply in_map_iff in Hin0. destruct Hin0 as (x & Ex & Hx).
    assert (Hxs : In x summary_columns) by (apply filter_In in Hx; tauto).
    now apply (renamed_summary c0 x Hc0 Hxs) in Ex.
Qed.

Lemma partial_projection_witness :
  columns (create_summary_csv partial_frame)
  = map (renamed column_mapping)
      (filter (has_column partial_frame) summary_columns) /\
  List.length (values (create_summary_csv partial_frame))
  = List.length (values partial_frame) /\
  map (map Some) (values (create_summary_csv partial_frame))
  = map (fun r => map (cell_at (columns partial_frame) r)
                    (filter (has_column partial_frame) summary_columns))
      (values partial_frame) /\
  (forall c, In c summary_columns -> ~ In c (columns partial_frame) ->
     ~ In (renamed column_mapping c) (columns (create_summary_csv partial_frame))) /\
  create_summary_csv partial_frame <> partial_frame.
Proof.
  refine (partial_projection partial_frame _ _ _).
  - split.
    + repeat constructor; simpl; intuition discriminate.
    + repeat constructor.
  - reflexivity.
  - exists "viewTime". split; simpl; tauto.
Defined.

(** What the summary of that frame is, column by column. *)
Lemma partial_frame_summary :
  create_summary_csv partial_frame
  = {| columns := [ "Demoboard_ID"; "View_Time_Seconds" ];
       values := [ [ JStr "A1"; JNum 7 ]; [ JStr ""; JNum 9 ] ] |}.
Proof. reflexivity. Qed.

End Projector.

(** * Further properties of the code *)

(** ** Paginator: limits and malformed pages *)

Module PaginatorEdges.
Import APIClient Runs Shapes PaginatorFacts Paginator.

(** What a pass that goes on to another page has seen. *)
Lemma loop_body_continue resp acc nxt acc' :
  loop_body resp acc = Continue nxt acc' ->
  exists kvs pg,
    resp = Ret (JObj kvs) /\
    dict_get "paging" kvs = Some (JObj pg) /\
    dict_get "nextPage" pg = Some nxt /\
    py_eq_0 nxt = false /\
    py_gt nxt 100 = Ret false.
Proof.
  unfold loop_body. intros H.
  destruct resp as [d|e]; [|discriminate].
  destruct d as [| | | | |kvs]; try discriminate.
  cbn [is_None] in H. rewrite !Flattener.py_get_obj in H.
  destruct (negb (truthy _)); [discriminate|].
  destruct (py_iter _) as [new_items|]; [|discriminate].
  destruct (Tables.field_or "paging" (JObj []) kvs) as [| | | | |pg] eqn:Ep;
    try discriminate.
  rewrite !Flattener.py_get_obj in H.
  destruct (is_None _ || py_eq_0 _) eqn:Ez; [discriminate|].
  apply orb_false_iff in Ez. destruct Ez as [_ Ez].
  destruct (py_gt _ 100) as [[|]|] eqn:Eg; try discriminate.
  injection H as <- <-.
  exists kvs, pg. split; [reflexivity|].
  unfold Tables.field_or in *.
  destruct (dict_get "paging" kvs) as [paging|].
  - subst paging. split; [reflexivity|].
    destruct (dict_get "nextPage" pg); [auto|discriminate Ez].
  - injection Ep as <-. discriminate Ez.
Qed.

Lemma fetch_loop_within_limit srv fuel :
  forall page acc asked o,
    fetch_loop srv fuel page acc asked = Some o ->
    (forall z, page = JNum z -> (z <= 100)%Z) ->
    (forall z, In (JNum z) asked -> (z <= 100)%Z) ->
    forall z, In (JNum z) (requested o) -> (z <= 100)%Z.
Proof.
  induction fuel as [|fuel IH]; intros page acc asked o H Hp Ha; [discriminate|].
  cbn [fetch_loop] in H.
  assert (Ha' : forall z, In (JNum z) (asked ++ [page]) -> (z <= 100)%Z).
  { intros z Hz. apply in_app_or in Hz. destruct Hz as [Hz|[Hz|[]]]; auto. }
  destruct (loop_body _ acc) as [nxt acc'|acc'|acc'] eqn:E.
  - apply (IH _ _ _ _ H); [|exact Ha'].
    intros z ->. apply loop_body_continue in E.
    destruct E as (_ & _ & _ & _ & _ & _ & Hg). cbn in Hg.
    injection Hg as Hg. apply Z.ltb_ge in Hg. exact Hg.
  - injection H as <-. exact Ha'.
  - injection H as <-. exact Ha'.
Qed.

Lemma fetch_loop_first_request srv fuel page acc o :
  fetch_loop srv fuel page acc [] = Some o ->
  hd_error (requested o) = Some page.
Proof.
  assert (G : forall fuel page' acc' asked o,
             fetch_loop srv fuel page' acc' asked = Some o ->
             hd_error (requested o) = hd_error (asked ++ [page'])).
  { clear. induction fuel as [|fuel IH]; intros page' acc' asked o H; [discriminate|].
    cbn [fetch_loop] in H.
    destruct (loop_body _ acc') as [nxt a|a|a].
    - rewrite (IH _ _ _ _ H). now destruct asked.
    - now injection H as <-.
    - now injection H as <-. }
  intros H. now rewrite (G _ _ _ _ _ H).
Qed.

(** X1: whatever the server answers, a run starts by asking for page 1 and
    never asks for a page number above 100. *)
Theorem never_requests_beyond_limit srv fuel o :
  get_all_consensus_data srv fuel = Some o ->
  hd_error (requested o) = Some (JNum 1) /\
  forall z, In (JNum z) (requested o) -> (z <= 100)%Z.
Proof.
  intros H. split.
  - exact (fetch_loop_first_request _ _ _ _ _ H).
  - apply (fetch_loop_within_limit _ _ _ _ _ _ H).
    + intros z E. injection E as <-. lia.
    + intros z [].
Qed.

Lemma never_requests_beyond_limit_witness :
  hd_error [JNum 1; JNum 2] = Some (JNum 1) /\
  forall z, In (JNum z) [JNum 1; JNum 2] -> (z <= 100)%Z.
Proof.
  refine (never_requests_beyond_limit two_pages 3
            {| returned := Some [JStr "a"; JStr "b"; JStr "c"];
               requested := [JNum 1; JNum 2] |} _).
  reflexivity.
Defined.

Lemma forward_loop_stops srv :
  forward_cursor srv ->
  forall fuel p acc asked,
    (1 <= p <= 100)%Z -> (101 - p <= Z.of_nat fuel)%Z ->
    exists o,
      fetch_loop srv fuel (JNum p) acc asked = Some o /\
      (Z.of_nat (List.length (requested o))
       <= Z.of_nat (List.length asked) + (101 - p))%Z.
Proof.
  intros Hfw. induction fuel as [|fuel IH]; intros p acc asked Hp Hfuel; [lia|].
  cbn [fetch_loop].
  destruct (loop_body _ acc) as [nxt acc'|acc'|acc'] eqn:E.
  - apply loop_body_continue in E.
    destruct E as (kvs & pg & Hr & Hpg & Hn & Hz & Hg).
    destruct (Hfw _ _ _ _ _ Hr Hpg Hn) as [->|(q & -> & Hq)]; [discriminate Hg|].
    cbn in Hz, Hg. injection Hg as Hg.
    apply Z.ltb_ge in Hg. apply Z.eqb_neq in Hz.
    destruct (IH q acc' (asked ++ [JNum p])) as (o & Ho & Hlen); [lia|lia|].
    exists o. split; [exact Ho|].
    rewrite length_app in Hlen. cbn [List.length] in Hlen. lia.
  - eexists. split; [reflexivity|].
    cbn [requested]. rewrite length_app. cbn [List.length]. lia.
  - eexists. split; [reflexivity|].
    cbn [requested]. rewrite length_app. cbn [List.length]. lia.
Qed.

(** X2: against a server whose cursor only moves forward the paginator stops
    within 100 requests. *)
Theorem forward_cursor_terminates srv :
  forward_cursor srv ->
  exists o,
    get_all_consensus_data srv 100 = Some o /\
    List.length (requested o) <= 100.
Proof.
  intros Hfw.
  destruct (forward_loop_stops srv Hfw 100 1%Z [] []) as (o & Ho & Hlen);
    [lia|lia|].
  exists o. split; [exact Ho|]. simpl in Hlen. lia.
Qed.

Lemma sequential_server_forward last : forward_cursor (sequential_server last).
Proof.
  intros n p kvs pg nx Hs Hpg Hnx. unfold serves, sequential_server in Hs.
  destruct ((1 <=? p) && (p <=? last))%Z; [|discriminate Hs].
  cbn in Hs. injection Hs as <-. cbn in Hpg. injection Hpg as <-.
  cbn in Hnx. injection Hnx as <-. right.
  destruct (p <? last)%Z; eexists; (split; [reflexivity|]); lia.
Qed.

Lemma forward_cursor_terminates_witness :
  exists o,
    get_all_consensus_data (sequential_server 1000) 100 = Some o /\
    List.length (requested o) <= 100.
Proof.
  refine (forward_cursor_terminates (sequential_server 1000) _).
  apply sequential_server_forward.
Defined.

(** A run through a script, followed by one more pass that raises. *)
Lemma run_then_except srv (s : script) d acc' fuel :
  follows srv 0 (JNum 1) s -> advancing s ->
  serves srv (List.length s) (cursor (JNum 1) s) d ->
  loop_body (Ret d) (items_of s) = Except acc' ->
  List.length s < fuel ->
  get_all_consensus_data srv fuel
  = Some {| returned := match acc' with [] => None | _ => Some acc' end;
            requested := asked_pages (JNum 1) s ++ [cursor (JNum 1) s] |}.
Proof.
  intros Hf Ha Hd Hb Hfuel.
  replace fuel with (List.length s + S (fuel - S (List.length s))) by lia.
  unfold get_all_consensus_data.
  rewrite fetch_loop_follows by assumption.
  cbn [fetch_loop]. simpl app.
  rewrite asked_pages_length. unfold serves in Hd. rewrite Hd, Hb. reflexivity.
Qed.

(** X3: when the very first request fails, the paginator returns the empty
    list, not [None], after that one request. *)
Theorem first_request_failure srv fuel :
  serves srv 0 (JNum 1) JNull -> 0 < fuel ->
  get_all_consensus_data srv fuel
  = Some {| returned := Some []; requested := [JNum 1] |}.
Proof.
  intros Hd Hfuel.
  exact (run_then_break srv [] JNull [] fuel I (Forall_nil _) Hd eq_refl Hfuel).
Qed.

Lemma first_request_failure_witness :
  get_all_consensus_data (fun _ _ => ConnectionError) 1
  = Some {| returned := Some []; requested := [JNum 1] |}.
Proof.
  refine (first_request_failure (fun _ _ => ConnectionError) 1 _ _).
  - reflexivity.
  - lia.
Defined.

(** X4: when the value under [data] is neither null nor a mapping (a list, a
    string, a number, a boolean), [.get] raises inside the loop; the
    paginator then returns the items gathered so far, or [None] when there
    are none. *)
Theorem page_that_is_no_mapping srv (s : script) d fuel :
  follows srv 0 (JNum 1) s -> advancing s ->
  serves srv (List.length s) (cursor (JNum 1) s) d ->
  d <> JNull -> (forall kvs, d <> JObj kvs) ->
  List.length s < fuel ->
  get_all_consensus_data srv fuel
  = Some {| returned := match items_of s with [] => None | l => Some l end;
            requested := asked_pages (JNum 1) s ++ [cursor (JNum 1) s] |}.
Proof.
  intros Hf Ha Hd Hnull Hobj Hfuel.
  rewrite (run_then_except srv s d (items_of s) fuel Hf Ha Hd); auto.
  - now destruct (items_of s).
  - destruct d; try reflexivity; [congruence|].
    exfalso. now apply (Hobj kvs).
Qed.

Lemma page_that_is_no_mapping_witness :
  get_all_consensus_data
    (fun _ _ => ok (JObj [ ("data", JArr [ JStr "x" ]) ])) 1
  = Some {| returned := None; requested := [JNum 1] |}.
Proof.
  refine (page_that_is_no_mapping
            (fun _ _ => ok (JObj [ ("data", JArr [ JStr "x" ]) ])) []
            (JArr [ JStr "x" ]) 1 _ _ _ _ _ _).
  - exact I.
  - constructor.
  - reflexivity.
  - discriminate.
  - discriminate.
  - simpl; lia.
Defined.

(** X5: a page with items whose paging info cannot be read (the [paging] value
    is not a mapping, or [nextPage] is a string) ends the run through the
    exception handler, after its items were added: they are part of the
    value returned. *)
Theorem items_kept_when_paging_breaks srv (s : script) kvs its fuel :
  follows srv 0 (JNum 1) s -> advancing s ->
  serves srv (List.length s) (cursor (JNum 1) s) (JObj kvs) ->
  dict_get "items" kvs = Some (JArr its) -> its <> [] ->
  (exists pg, dict_get "paging" kvs = Some pg /\ forall l, pg <> JObj l) \/
  (exists pg t, dict_get "paging" kvs = Some (JObj pg) /\
                dict_get "nextPage" pg = Some (JStr t)) ->
  List.length s < fuel ->
  get_all_consensus_data srv fuel
  = Some {| returned := Some (items_of s ++ its);
            requested := asked_pages (JNum 1) s ++ [cursor (JNum 1) s] |}.
Proof.
  intros Hf Ha Hd Hi Hne Hpg Hfuel.
  rewrite (run_then_except srv s (JObj kvs) (items_of s ++ its) fuel Hf Ha Hd);
    auto.
  - destruct (items_of s ++ its) eqn:E; [|reflexivity].
    apply app_eq_nil in E. tauto.
  - unfold loop_body. cbn [is_None py_get]. rewrite Hi.
    destruct its as [|x its]; [congruence|].
    destruct Hpg as [(pg & Hp & Hno)|(pg & t & Hp & Hn)]; rewrite Hp.
    + cbn [truthy negb py_iter].
      destruct pg; try reflexivity. exfalso. now apply (Hno kvs0).
    + cbn [truthy negb py_iter py_get]. rewrite Hn.
      destruct (dict_get "countItems" pg); reflexivity.
Qed.

Lemma items_kept_when_paging_breaks_witness :
  get_all_consensus_data
    (fun _ _ => ok (JObj [ ("data", JObj [ ("items", JArr [ JStr "x" ]);
                                           ("paging", JNull) ]) ])) 1
  = Some {| returned := Some ([] ++ [ JStr "x" ]); requested := [] ++ [JNum 1] |}.
Proof.
  refine (items_kept_when_paging_breaks
            (fun _ _ => ok (JObj [ ("data", JObj [ ("items", JArr [ JStr "x" ]);
                                                   ("paging", JNull) ]) ]))
            [] [ ("items", JArr [ JStr "x" ]); ("paging", JNull) ] [ JStr "x" ] 1
            _ _ _ _ _ _ _).
  - exact I.
  - constructor.
  - reflexivity.
  - reflexivity.
  - discriminate.
  - left. exists JNull. split; [reflexivity|]. discriminate.
  - simpl; lia.
Defined.

(** X6: a page with items and no [paging] key at all is taken as the last page:
    its items are added and the run ends normally. *)
Theorem page_without_paging_is_last srv (s : script) kvs its fuel :
  follows srv 0 (JNum 1) s -> advancing s ->
  serves srv (List.length s) (cursor (JNum 1) s) (JObj kvs) ->
  dict_get "items" kvs = Some (JArr its) -> its <> [] ->
  dict_get "paging" kvs = None ->
  List.length s < fuel ->
  get_all_consensus_data srv fuel
  = Some {| returned := Some (items_of s ++ its);
            requested := asked_pages (JNum 1) s ++ [cursor (JNum 1) s] |}.
Proof.
  intros Hf Ha Hd Hi Hne Hp Hfuel.
  apply (run_then_break srv s (JObj kvs)); auto.
  unfold loop_body. cbn [is_None py_get]. rewrite Hi, Hp.
  destruct its as [|x its]; [congruence|reflexivity].
Qed.

Lemma page_without_paging_is_last_witness :
  get_all_consensus_data
    (fun _ _ => ok (JObj [ ("data", JObj [ ("items", JArr [ JStr "x" ]) ]) ])) 1
  = Some {| returned := Some ([] ++ [ JStr "x" ]); requested := [] ++ [JNum 1] |}.
Proof.
  refine (page_without_paging_is_last
            (fun _ _ => ok (JObj [ ("data", JObj [ ("items", JArr [ JStr "x" ]) ]) ]))
            [] [ ("items", JArr [ JStr "x" ]) ] [ JStr "x" ] 1 _ _ _ _ _ _ _).
  - exact I.
  - constructor.
  - reflexivity.
  - reflexivity.
  - discriminate.
  - reflexivity.
  - simpl; lia.
Defined.

End PaginatorEdges.

(** ** Single requests *)

Module RequestFacts.
Import APIClient Requests Shapes.

(** X7: the paginating transport answers [None] exactly when the request
    failed (no connection, an error status, a body that is not JSON) or the
    body is not a mapping with a non-null value under [data]. *)
Theorem transport_failure_iff (o : post_outcome) :
  get_consensus_data_with_pagination o = Ret JNull <->
  o = ConnectionError \/
  exists r,
    o = Response r /\
    ((400 <= status_code r < 600)%Z \/
     json_body r = None \/
     exists data,
       json_body r = Some data /\
       match data with
       | JObj kvs =>
           dict_get "data" kvs = None \/ dict_get "data" kvs = Some JNull
       | _ => True
       end).
Proof.
  unfold get_consensus_data_with_pagination, raise_for_status.
  destruct o as [|[code body]]; cbn [session_post bind status_code json_body].
  - split; [now left|reflexivity].
  - destruct ((400 <=? code) && (code <? 600))%Z eqn:Ec; cbn [bind].
    + split; [|reflexivity]. intros _. right. eexists. split; [reflexivity|].
      left. apply andb_true_iff in Ec. simpl. lia.
    + apply andb_false_iff in Ec.
      destruct body as [data|]; cbn [response_json bind json_body].
      * split.
        -- intros H. right. eexists. split; [reflexivity|]. right. right.
           exists data. split; [reflexivity|].
           destruct data; auto.
           destruct (dict_get "data" kvs) as [d|]; [|now left].
           right. congruence.
        -- intros [E|(r & E & H)]; [discriminate|].
           injection E as <-. cbn [status_code json_body] in H.
           destruct H as [Hc|[Hb|(data' & Hb & Hd)]]; [lia|discriminate|].
           injection Hb as Hb. subst data'.
           destruct data; try reflexivity.
           destruct Hd as [-> | ->]; reflexivity.
      * split; [|reflexivity]. intros _. right. eexists. split; [reflexivity|].
        right. now left.
Qed.

(** X8: [get_consensus_data] on an answer of the expected shape: the item list
    is returned as it is. The paging info may be missing, and so may its
    [nextPage], which is otherwise a number. *)
Theorem get_consensus_data_items code kvs dkvs its page :
  (code < 400 \/ 600 <= code)%Z ->
  dict_get "data" kvs = Some (JObj dkvs) ->
  dict_get "items" dkvs = Some (JArr its) ->
  (dict_get "paging" dkvs = None \/
   exists pg,
     dict_get "paging" dkvs = Some (JObj pg) /\
     (dict_get "nextPage" pg = None \/ exists z, dict_get "nextPage" pg = Some (JNum z))) ->
  get_consensus_data
    (Response {| status_code := code; json_body := Some (JObj kvs) |}) page
  = Ret (JArr its).
Proof.
  intros Hc Hd Hi Hp.
  unfold get_consensus_data, raise_for_status; cbn [session_post bind status_code].
  replace ((400 <=? code) && (code <? 600))%Z with false
    by (symmetry; apply andb_false_iff; lia).
  cbn [bind response_json json_body py_item]. rewrite Hd.
  cbn [py_in bind py_item]. rewrite Hi. cbn [bind py_len].
  destruct Hp as [Hp|(pg & Hp & Hn)]; rewrite Hp; cbn [bind]; [reflexivity|].
  rewrite !Flattener.py_get_obj. cbn [bind].
  unfold Tables.field_or.
  destruct Hn as [-> | [z ->]]; reflexivity.
Qed.

Lemma get_consensus_data_items_witness :
  get_consensus_data
    (Response {| status_code := 200;
                 json_body :=
                   Some (JObj [ ("data", JObj [ ("items", JArr [ JStr "x" ]) ]) ]) |})
    (JNum 1)
  = Ret (JArr [ JStr "x" ]).
Proof.
  refine (get_consensus_data_items 200%Z
            [ ("data", JObj [ ("items", JArr [ JStr "x" ]) ]) ]
            [ ("items", JArr [ JStr "x" ]) ] [ JStr "x" ] (JNum 1) _ _ _ _).
  - left; lia.
  - reflexivity.
  - reflexivity.
  - left; reflexivity.
Defined.

(** X9: [get_consensus_data] on an answer of another shape (not a mapping, no
    [data], or a [data] mapping without [items]): the parsed body itself is
    returned, so the result is [None] only when the body is JSON null. *)
Theorem get_consensus_data_passes_body code body page :
  (code < 400 \/ 600 <= code)%Z ->
  (forall kvs, body = JObj kvs ->
     dict_get "data" kvs = None \/
     exists dkvs, dict_get "data" kvs = Some (JObj dkvs) /\
                  dict_get "items" dkvs = None) ->
  get_consensus_data
    (Response {| status_code := code; json_body := Some body |}) page
  = Ret body /\
  (get_consensus_data
     (Response {| status_code := code; json_body := Some body |}) page
   = Ret JNull <-> body = JNull).
Proof.
  intros Hc Hb.
  assert (E : get_consensus_data
                (Response {| status_code := code; json_body := Some body |}) page
              = Ret body).
  { unfold get_consensus_data, raise_for_status; cbn [session_post bind status_code].
    replace ((400 <=? code) && (code <? 600))%Z with false
      by (symmetry; apply andb_false_iff; lia).
    cbn [bind response_json json_body].
    destruct body; try reflexivity.
    destruct (Hb kvs eq_refl) as [-> |(dkvs & -> & Hi)]; [reflexivity|].
    cbn [py_in]. now rewrite Hi. }
  split; [exact E|]. rewrite E. split; congruence.
Qed.

Lemma get_consensus_data_passes_body_witness :
  get_consensus_data
    (Response {| status_code := 200;
                 json_body := Some (JObj [ ("error", JStr "bad range") ]) |})
    (JNum 1)
  = Ret (JObj [ ("error", JStr "bad range") ]).
Proof.
  refine (proj1 (get_consensus_data_passes_body 200%Z
                   (JObj [ ("error", JStr "bad range") ]) (JNum 1) _ _)).
  - left; lia.
  - intros kvs E. injection E as <-. left. reflexivity.
Defined.

(** X10: [get_consensus_data] lets a [TypeError] out when the value under [data]
    is null, a number or a boolean ([in] is not defined on it), and when the
    paging info holds a null [nextPage] (it cannot be compared with 0). *)
Theorem get_consensus_data_raises code kvs page :
  (code < 400 \/ 600 <= code)%Z ->
  (exists d, dict_get "data" kvs = Some d /\
             (d = JNull \/ (exists z, d = JNum z) \/ exists b, d = JBool b)) \/
  (exists dkvs its pg,
     dict_get "data" kvs = Some (JObj dkvs) /\
     dict_get "items" dkvs = Some (JArr its) /\
     dict_get "paging" dkvs = Some (JObj pg) /\
     dict_get "nextPage" pg = Some JNull) ->
  get_consensus_data
    (Response {| status_code := code; json_body := Some (JObj kvs) |}) page
  = Raise TypeError.
Proof.
  intros Hc H.
  unfold get_consensus_data, raise_for_status; cbn [session_post bind status_code].
  replace ((400 <=? code) && (code <? 600))%Z with false
    by (symmetry; apply andb_false_iff; lia).
  cbn [bind response_json json_body py_item].
  destruct H as [(d & -> & [-> |[[z ->]|[b ->]]])|(dkvs & its & pg & -> & Hi & Hp & Hn)];
    try reflexivity.
  cbn [py_in bind py_item]. rewrite Hi. cbn [bind py_len]. rewrite Hp. cbn [bind].
  rewrite !Flattener.py_get_obj. cbn [bind].
  unfold Tables.field_or. rewrite Hn. reflexivity.
Qed.

Lemma get_consensus_data_raises_witness :
  get_consensus_data
    (Response {| status_code := 200;
                 json_body := Some (JObj [ ("data", JNull) ]) |}) (JNum 1)
  = Raise TypeError.
Proof.
  refine (get_consensus_data_raises 200%Z [ ("data", JNull) ] (JNum 1) _ _).
  - left; lia.
  - left. exists JNull. split; [reflexivity|]. left; reflexivity.
Defined.

Lemma rstrip_slash c s : rstrip c (s ++ String c EmptyString)%string = rstrip c s.
Proof.
  induction s as [|a s IH]; simpl.
  - now rewrite Ascii.eqb_refl.
  - now rewrite IH.
Qed.

Lemma rstrip_slashes s n : rstrip "/" (s ++ slashes n)%string = rstrip "/" s.
Proof.
  revert s. induction n as [|n IH]; intros s; simpl.
  - f_equal. induction s as [|a s IHs]; simpl; [reflexivity|now rewrite IHs].
  - replace (s ++ String "/" (slashes n))%string
      with ((s ++ String "/" EmptyString) ++ slashes n)%string.
    + now rewrite IH, rstrip_slash.
    + induction s as [|a s IHs]; simpl; [reflexivity|now rewrite IHs].
Qed.

Lemma lstrip_slashes s n : lstrip "/" (slashes n ++ s)%string = lstrip "/" s.
Proof. induction n as [|n IH]; simpl; auto. Qed.

(** X11: slashes at the junction do not matter to [get]: any number of them at
    the end of the base URL or in front of the endpoint gives the same URL,
    and so the same request and result. *)
Theorem get_ignores_junction_slashes base_url endpoint n m net :
  get_url (base_url ++ slashes n) (slashes m ++ endpoint) = get_url base_url endpoint /\
  get (base_url ++ slashes n) (slashes m ++ endpoint) net = get base_url endpoint net.
Proof.
  assert (E : get_url (base_url ++ slashes n) (slashes m ++ endpoint)
              = get_url base_url endpoint).
  { unfold get_url. now rewrite rstrip_slashes, lstrip_slashes. }
  split; [exact E|]. unfold get. now rewrite E.
Qed.

(** The URL of [get] has the base without its trailing slashes, one slash,
    and the endpoint without its leading slashes. *)
Lemma get_url_example :
  get_url "https://api.example.com/v1//" "/boards/7" = "https://api.example.com/v1/boards/7".
Proof. reflexivity. Qed.

End RequestFacts.

(** ** Rows *)

Module FlattenerRows.
Import DataProcessor Tables Shapes Flattener.

(** What a record that expands without an exception looks like, and the
    rows it gives. *)
Lemma expand_record_ret record rows :
  expand_record record = Ret rows ->
  exists fields o,
    record = JObj fields /\
    field_or "externalOpportunity" (JObj []) fields = JObj o /\
    (rows = [dict_set "demoUuids" (field_or "demoUuid" (JStr "") fields)
               (base_info fields o)] \/
     exists ids, rows = enumerate_rows (base_info fields o) 0 ids).
Proof.
  intros H. destruct record as [| | | | |fields]; try discriminate H.
  exists fields. unfold expand_record in H.
  rewrite !py_get_obj in H. cbn [bind] in H.
  destruct (field_or "externalOpportunity" (JObj []) fields) as [| | | | |o];
    try discriminate H.
  exists o. split; [reflexivity|]. split; [reflexivity|].
  rewrite !py_get_obj in H. cbn [bind] in H.
  destruct (truthy _).
  - destruct (py_iter _) as [ids|]; [|discriminate H].
    cbn [bind] in H. injection H as <-. right. now exists ids.
  - injection H as <-. now left.
Qed.

Lemma enumerate_rows_all (P : row -> Prop) info ids :
  (forall v, P (dict_set "demoUuids" v info)) ->
  (forall v, P (dict_set "demoUuids" v (dict_set "senddemoUuid" (JStr "") info))) ->
  forall i, Forall P (enumerate_rows info i ids).
Proof.
  intros H0 H1. induction ids as [|x ids IH]; intros i; simpl; constructor; auto.
  destruct (Nat.eqb i 0); auto.
Qed.

(** X12: every row that [process_data] builds has the same ten keys in the same
    order, whatever the record holds; the six summary columns are among
    them. *)
Theorem rows_share_their_keys data rows :
  processed_records data = Ret rows ->
  Forall (fun r => map fst r = row_keys) rows.
Proof.
  revert rows. induction data as [|record data IH]; intros rows H; simpl in H.
  - injection H as <-. constructor.
  - destruct (expand_record record) as [rs|] eqn:E; [|discriminate H].
    cbn [bind] in H.
    destruct (processed_records data) as [more|]; [|discriminate H].
    cbn [bind] in H. injection H as <-.
    apply Forall_app. split; [|now apply IH].
    apply expand_record_ret in E.
    destruct E as (fields & o & _ & _ & [-> |[ids ->]]).
    + constructor; [reflexivity|constructor].
    + apply enumerate_rows_all; intros v; reflexivity.
Qed.

Lemma rows_share_their_keys_witness :
  Forall (fun r => map fst r = row_keys)
    (enumerate_rows (base_info scenario_record [ ("externalAccountId", JStr "X") ]) 0
       [ JStr "d1"; JStr "d2" ]).
Proof.
  refine (rows_share_their_keys [ JObj scenario_record ] _ _).
  reflexivity.
Defined.

(** X13: every row of a record repeats the record's detail fields, with the
    defaults of the code for those that are missing (0 for [viewTime], the
    empty string for the others). *)
Theorem rows_repeat_detail_fields fields rows :
  expand_record (JObj fields) = Ret rows ->
  exists o,
    field_or "externalOpportunity" (JObj []) fields = JObj o /\
    Forall (fun r =>
      dict_get "demoboardName" r = Some (field_or "demoboardName" (JStr "") fields) /\
      dict_get "organization" r = Some (field_or "organization" (JStr "") fields) /\
      dict_get "viewTime" r = Some (field_or "viewTime" (JNum 0) fields) /\
      dict_get "timeLastView" r = Some (field_or "timeLastView" (JStr "") fields) /\
      dict_get "externalAccountId" r = Some (field_or "externalAccountId" (JStr "") o) /\
      dict_get "externalOpportunityId" r
      = Some (field_or "externalOpportunityId" (JStr "") o) /\
      dict_get "externalAccountName" r
      = Some (field_or "externalAccountName" (JStr "") o) /\
      dict_get "externalOpportunityName" r
      = Some (field_or "externalOpportunityName" (JStr "") o)) rows.
Proof.
  intros H. apply expand_record_ret in H.
  destruct H as (fields' & o & E & Ho & Hrows). injection E as <-.
  exists o. split; [exact Ho|].
  destruct Hrows as [-> |[ids ->]].
  - constructor; [|constructor]. repeat split; reflexivity.
  - apply enumerate_rows_all; intros v; repeat split; reflexivity.
Qed.

Lemma rows_repeat_detail_fields_witness :
  exists o,
    field_or "externalOpportunity" (JObj []) scenario_record = JObj o /\
    Forall (fun r =>
      dict_get "demoboardName" r
      = Some (field_or "demoboardName" (JStr "") scenario_record) /\
      dict_get "organization" r
      = Some (field_or "organization" (JStr "") scenario_record) /\
      dict_get "viewTime" r = Some (field_or "viewTime" (JNum 0) scenario_record) /\
      dict_get "timeLastView" r
      = Some (field_or "timeLastView" (JStr "") scenario_record) /\
      dict_get "externalAccountId" r = Some (field_or "externalAccountId" (JStr "") o) /\
      dict_get "externalOpportunityId" r
      = Some (field_or "externalOpportunityId" (JStr "") o) /\
      dict_get "externalAccountName" r
      = Some (field_or "externalAccountName" (JStr "") o) /\
      dict_get "externalOpportunityName" r
      = Some (field_or "externalOpportunityName" (JStr "") o))
      (enumerate_rows (base_info scenario_record [ ("externalAccountId", JStr "X") ]) 0
         [ JStr "d1"; JStr "d2" ]).
Proof.
  refine (rows_repeat_detail_fields scenario_record _ _).
  reflexivity.
Defined.

Lemma expand_record_count fields :
  raw_record fields ->
  exists rows,
    expand_record (JObj fields) = Ret rows /\
    List.length rows = Nat.max 1 (session_count fields).
Proof.
  intros [Hopp Hids].
  destruct (expand_record_obj fields Hopp) as (o & _ & E).
  unfold session_count, field_or in *.
  destruct Hids as [Hn|[ids Hi]].
  - rewrite Hn in *. cbn [truthy] in E. eexists. split; [exact E|reflexivity].
  - rewrite Hi in *. destruct ids as [|x ids].
    + cbn [truthy] in E. eexists. split; [exact E|reflexivity].
    + cbn [truthy py_iter bind] in E. eexists. split; [exact E|].
      rewrite enumerate_rows_length. simpl. lia.
Qed.

(** X14: for a list of RawRecords the number of rows is the sum, over the
    records, of the number of session ids, a record without any counting
    for one. *)
Theorem row_count data :
  Forall raw_record data ->
  exists rows,
    processed_records (map JObj data) = Ret rows /\
    List.length rows
    = list_sum (map (fun fields => Nat.max 1 (session_count fields)) data).
Proof.
  induction 1 as [|fields data Hf _ (more & Em & Hm)]; simpl.
  - exists []. split; reflexivity.
  - destruct (expand_record_count fields Hf) as (rs & Er & Hr).
    exists (rs ++ more). rewrite Er, Em. cbn [bind]. split; [reflexivity|].
    rewrite length_app, Hr, Hm. reflexivity.
Qed.

Lemma row_count_witness :
  exists rows,
    processed_records (map JObj [ scenario_record; [ ("demoUuid", JStr "d0") ] ])
    = Ret rows /\
    List.length rows
    = list_sum (map (fun fields => Nat.max 1 (session_count fields))
                  [ scenario_record; [ ("demoUuid", JStr "d0") ] ]).
Proof.
  refine (row_count [ scenario_record; [ ("demoUuid", JStr "d0") ] ] _).
  constructor; [|constructor; [|constructor]].
  - split; right; eexists; reflexivity.
  - split; left; reflexivity.
Defined.

Lemma processed_records_raise data record e :
  In record data -> expand_record record = Raise e ->
  exists e', processed_records data = Raise e'.
Proof.
  induction data as [|r data IH]; intros Hin He; [destruct Hin|]. simpl.
  destruct (expand_record r) as [rs|e0] eqn:E; [|now exists e0].
  cbn [bind]. destruct Hin as [-> |Hin]; [congruence|].
  destruct (IH Hin He) as [e' ->]. now exists e'.
Qed.

(** X15: one record that raises (it is not a mapping, or its
    [externalOpportunity] is not one) costs the whole batch:
    [process_data] answers with the empty frame, whatever the other records
    hold. *)
Theorem one_bad_record_empties_the_frame
    {Frame} (frame : list row -> Frame) clean data record e :
  In record data -> expand_record record = Raise e ->
  process_data Frame frame clean data = frame [].
Proof.
  intros Hin He. unfold process_data.
  destruct data as [|r data]; [reflexivity|].
  destruct (processed_records_raise _ _ _ Hin He) as [e' ->]. reflexivity.
Qed.

Lemma one_bad_record_empties_the_frame_witness :
  process_data (DataFrame row) one_column (fun df => Ret df)
    [ JObj scenario_record; JObj [ ("externalOpportunity", JNull) ] ]
  = one_column [].
Proof.
  refine (one_bad_record_empties_the_frame one_column (fun df => Ret df)
            [ JObj scenario_record; JObj [ ("externalOpportunity", JNull) ] ]
            (JObj [ ("externalOpportunity", JNull) ]) AttributeError _ _).
  - right. left. reflexivity.
  - reflexivity.
Defined.

(** X16: a [demoUuids] that is null, false, 0, an empty string or an empty
    mapping is treated like the empty list: the record gives one row with
    its [demoUuid]. *)
Theorem falsy_demoUuids_fallback fields v :
  opportunity_ok fields ->
  dict_get "demoUuids" fields = Some v -> truthy v = false ->
  exists r,
    expand_record (JObj fields) = Ret [r] /\
    dict_get "demoUuids" r = Some (field_or "demoUuid" (JStr "") fields).
Proof.
  intros Hopp Hv Ht.
  destruct (expand_record_obj fields Hopp) as (o & _ & E).
  unfold field_or at 1 in E. rewrite Hv, Ht in E.
  eexists. split; [exact E|]. apply dict_get_set_same.
Qed.

Lemma falsy_demoUuids_fallback_witness :
  exists r,
    expand_record (JObj [ ("demoUuids", JNull); ("demoUuid", JStr "d0") ]) = Ret [r] /\
    dict_get "demoUuids" r
    = Some (field_or "demoUuid" (JStr "")
              [ ("demoUuids", JNull); ("demoUuid", JStr "d0") ]).
Proof.
  refine (falsy_demoUuids_fallback
            [ ("demoUuids", JNull); ("demoUuid", JStr "d0") ] JNull _ _ _).
  - left. reflexivity.
  - reflexivity.
  - reflexivity.
Defined.

End FlattenerRows.

(** ** Laws of the projector *)

Module ProjectorLaws.
Import DataProcessor Tables Shapes Projector.

Section Laws.

Context {cell : Type}.
Implicit Types (df : DataFrame cell).

Lemma positions_label col labels :
  forall k p, In p (positions col k labels) ->
    k <= p /\ nth_error labels (p - k) = Some col.
Proof.
  induction labels as [|l rest IH]; intros k p H; [destruct H|].
  simpl in H. destruct (String.eqb col l) eqn:E.
  - destruct H as [<-|H].
    + apply String.eqb_eq in E. subst. rewrite Nat.sub_diag. now split.
    + apply IH in H. destruct H as [Hk Hn]. split; [lia|].
      replace (p - k) with (S (p - S k)) by lia. exact Hn.
  - apply IH in H. destruct H as [Hk Hn]. split; [lia|].
    replace (p - k) with (S (p - S k)) by lia. exact Hn.
Qed.

Lemma positions_present col labels k :
  In col labels -> positions col k labels <> [].
Proof.
  revert k. induction labels as [|l rest IH]; intros k H; [destruct H|].
  simpl. destruct (String.eqb col l) eqn:E; [discriminate|].
  destruct H as [->|H]; [now rewrite String.eqb_refl in E|]. now apply IH.
Qed.

(** The summary of a non-empty frame with a summary column: its labels are
    exported names of source columns, there is at least one, and the rows are
    as many as before. *)
Lemma summary_shape df :
  empty df = false ->
  filter (has_column df) summary_columns <> [] ->
  (forall l, In l (columns (create_summary_csv df)) ->
     exists c, In c summary_columns /\ l = renamed column_mapping c) /\
  columns (create_summary_csv df) <> [] /\
  List.length (values (create_summary_csv df)) = List.length (values df).
Proof.
  intros Hemp Hav. unfold create_summary_csv. rewrite Hemp.
  destruct (filter (has_column df) summary_columns) as [|a av] eqn:Eav;
    [congruence|].
  rewrite <- Eav in *. unfold getitem.
  replace (forallb (has_column df) (filter (has_column df) summary_columns))
    with true.
  2:{ symmetry. apply forallb_forall. intros x Hx. now apply filter_In in Hx. }
  cbn [bind rename columns values]. split; [|split].
  - intros l Hl. apply in_map_iff in Hl. destruct Hl as (x & <- & Hx).
    apply in_map_iff in Hx. destruct Hx as (p & <- & Hp).
    apply in_flat_map in Hp. destruct Hp as (c & Hc & Hp).
    apply positions_label in Hp. destruct Hp as [_ Hp].
    rewrite Nat.sub_0_r in Hp. apply (nth_error_nth _ _ ""%string) in Hp.
    exists c. split; [apply filter_In in Hc; tauto|]. now rewrite Hp.
  - intros E. apply map_eq_nil in E. apply map_eq_nil in E.
    rewrite Eav in E. cbn [flat_map] in E. apply app_eq_nil in E.
    destruct E as [E _]. revert E. apply positions_present.
    apply has_column_In.
    assert (Ha : In a (filter (has_column df) summary_columns))
      by (rewrite Eav; now left).
    apply filter_In in Ha. tauto.
  - now rewrite length_map.
Qed.

(** X17: projecting a second time changes nothing. *)
Theorem create_summary_csv_idempotent df :
  create_summary_csv (create_summary_csv df) = create_summary_csv df.
Proof.
  destruct (empty df) eqn:Hemp.
  - assert (E : create_summary_csv df = new_frame).
    { unfold create_summary_csv. now rewrite Hemp. }
    now rewrite !E.
  - destruct (filter (has_column df) summary_columns) as [|a av] eqn:Eav.
    + assert (E : create_summary_csv df = df).
      { unfold create_summary_csv. now rewrite Hemp, Eav. }
      now rewrite !E.
    + destruct (summary_shape df Hemp) as (Hl & Hne & Hlen);
        [rewrite Eav; discriminate|].
      set (out := create_summary_csv df) in *.
      assert (Hemp' : empty out = false).
      { unfold empty. destruct (columns out); [congruence|].
        destruct (values out) eqn:Ev; [|reflexivity].
        simpl in Hlen. unfold empty in Hemp.
        destruct (columns df); [discriminate|].
        destruct (values df); [discriminate|discriminate Hlen]. }
      unfold create_summary_csv at 1. rewrite Hemp'.
      rewrite filter_none; [reflexivity|].
      intros x Hx. destruct (has_column out x) eqn:E; [|reflexivity].
      apply has_column_In in E. apply Hl in E. destruct E as (c & Hc & E).
      symmetry in E. now apply (renamed_summary x c Hx Hc) in E.
Qed.

(** X18: the projector never changes the number of rows of a frame that is not
    empty, whatever its columns. *)
Theorem create_summary_csv_keeps_rows df :
  empty df = false ->
  List.length (values (create_summary_csv df)) = List.length (values df).
Proof.
  intros Hemp.
  destruct (filter (has_column df) summary_columns) as [|a av] eqn:Eav.
  - unfold create_summary_csv. now rewrite Hemp, Eav.
  - apply summary_shape; [exact Hemp|]. rewrite Eav. discriminate.
Qed.

End Laws.

Lemma create_summary_csv_keeps_rows_witness :
  List.length (values (create_summary_csv sample_frame))
  = List.length (values sample_frame).
Proof.
  refine (create_summary_csv_keeps_rows sample_frame _).
  reflexivity.
Defined.

End ProjectorLaws.

(** ** The entry point *)

Module MainRuns.
Import APIClient DataProcessor Runs Shapes Main PaginatorFacts Paginator.

Section Runs.

Context {cell : Type}.
Variable pd_DataFrame : list row -> DataFrame cell.
Variable clean : DataFrame cell -> result (DataFrame cell).
Variable df_dtypes : DataFrame cell -> result (list (string * string)).
Variable df_null_counts : DataFrame cell -> result (list (string * nat)).
Variable export_to_csv : DataFrame cell -> string -> bool.
Variables stamp_full stamp_summary : string.

(** X19: once [setup_logging] has returned, when the first request fails,
    [main] does not take its "failed to fetch" exit: the paginator hands it
    the empty list, processing gives the empty frame, and the process ends
    with status 0 and no export. *)
Theorem failed_fetch_exits_with_0 srv fuel :
  empty (pd_DataFrame []) = true ->
  serves srv 0 (JNum 1) JNull -> 0 < fuel ->
  main cell pd_DataFrame clean df_dtypes df_null_counts export_to_csv
    stamp_full stamp_summary (Ret tt) srv fuel
  = Some {| exit_status := 0; exports := [] |}.
Proof.
  intros Hemp Hd Hfuel. unfold main.
  rewrite (run_then_break srv [] JNull [] fuel I (Forall_nil _) Hd eq_refl Hfuel).
  cbn [returned main_try process_data]. now rewrite Hemp.
Qed.

(** X20: [main] ends with status 1 only when [setup_logging] raised, the
    paginator returned [None], the summary of a frame that is not empty
    raised, or an export failed; in every other case that ends, the status
    is 0. *)
Theorem exit_status_1 setup srv fuel f :
  main cell pd_DataFrame clean df_dtypes df_null_counts export_to_csv
    stamp_full stamp_summary setup srv fuel = Some f ->
  exit_status f = 1%Z ->
  (exists e, setup = Raise e) \/
  (exists o, get_all_consensus_data srv fuel = Some o /\ returned o = None) \/
  (exists o data e,
     get_all_consensus_data srv fuel = Some o /\ returned o = Some data /\
     empty (process_data _ pd_DataFrame clean data) = false /\
     get_data_summary cell df_dtypes df_null_counts
       (process_data _ pd_DataFrame clean data) = Raise e) \/
  exists name df, In (name, df) (exports f) /\ export_to_csv df name = false.
Proof.
  unfold main. intros H H1.
  destruct setup as [[]|e]; [|left; eauto]. right.
  destruct (get_all_consensus_data srv fuel) as [o|]; [|discriminate H].
  destruct (returned o) as [data|] eqn:Er; [|left; eauto].
  right. cbn [main_try] in H.
  destruct (empty _) eqn:Ee.
  - injection H as <-. discriminate H1.
  - destruct (get_data_summary cell df_dtypes df_null_counts _) as [sm|e] eqn:Es.
    + right. cbn [bind] in H. injection H as <-. cbn [exit_status exports] in *.
      destruct (export_to_csv (process_data _ pd_DataFrame clean data) _) eqn:E1.
      * destruct (export_to_csv (create_summary_csv _) _) eqn:E2;
          [discriminate H1|].
        do 2 eexists. split; [right; left; reflexivity|exact E2].
      * do 2 eexists. split; [left; reflexivity|exact E1].
    + left. exists o, data, e. repeat split; auto.
Qed.

(** When nothing raises and both files are written, [main] ends with status
    0 after exporting the full frame and then its summary. *)
Lemma main_exports srv fuel o data types nulls :
  get_all_consensus_data srv fuel = Some o -> returned o = Some data ->
  empty (process_data _ pd_DataFrame clean data) = false ->
  df_dtypes (process_data _ pd_DataFrame clean data) = Ret types ->
  df_null_counts (process_data _ pd_DataFrame clean data) = Ret nulls ->
  (forall df name, export_to_csv df name = true) ->
  main cell pd_DataFrame clean df_dtypes df_null_counts export_to_csv
    stamp_full stamp_summary (Ret tt) srv fuel
  = Some {| exit_status := 0;
            exports :=
              [ (("consensus_full_data_" ++ stamp_full ++ ".csv")%string,
                 process_data _ pd_DataFrame clean data);
                (("consensus_summary_" ++ stamp_summary ++ ".csv")%string,
                 create_summary_csv (process_data _ pd_DataFrame clean data)) ] |}.
Proof.
  intros Hrun Hret Hne Ht Hn Hexp. unfold main. rewrite Hrun, Hret.
  cbn [main_try]. rewrite Hne. unfold get_data_summary. rewrite Ht, Hn.
  cbn [bind]. now rewrite !Hexp.
Qed.

End Runs.

Lemma failed_fetch_exits_with_0_witness :
  main row one_column (fun df => Ret df) (fun _ => Ret []) (fun _ => Ret [])
    (fun _ _ => true) "20250101" "20250101" (Ret tt)
    (fun _ _ => ConnectionError) 1
  = Some {| exit_status := 0; exports := [] |}.
Proof.
  refine (failed_fetch_exits_with_0 one_column (fun df => Ret df)
            (fun _ => Ret []) (fun _ => Ret []) (fun _ _ => true)
            "20250101" "20250101" (fun _ _ => ConnectionError) 1 _ _ _).
  - reflexivity.
  - reflexivity.
  - lia.
Defined.

Lemma exit_status_1_witness :
  (exists e, Raise AttributeError = @Raise unit e) \/
  (exists o,
     get_all_consensus_data
       (fun _ _ => ok (JObj [ ("data", JArr [ JStr "x" ]) ])) 1 = Some o /\
     returned o = None) \/
  (exists o data e,
     get_all_consensus_data
       (fun _ _ => ok (JObj [ ("data", JArr [ JStr "x" ]) ])) 1 = Some o /\
     returned o = Some data /\
     empty (process_data _ one_column (fun df => Ret df) data) = false /\
     get_data_summary row (fun _ => Ret []) (fun _ => Ret [])
       (process_data _ one_column (fun df => Ret df) data) = Raise e) \/
  exists name df,
    In (name, df) (@exports row {| exit_status := 1; exports := [] |}) /\
    (fun _ _ => true) df name = false.
Proof.
  refine (exit_status_1 one_column (fun df => Ret df) (fun _ => Ret [])
            (fun _ => Ret []) (fun _ _ => true) "20250101" "20250101"
            (Raise AttributeError)
            (fun _ _ => ok (JObj [ ("data", JArr [ JStr "x" ]) ])) 1
            {| exit_status := 1; exports := [] |} _ _).
  - reflexivity.
  - reflexivity.
Defined.

End MainRuns.

(** ** The page limit against a jumping cursor *)

Module PageLimit.
Import APIClient Runs Frames Paginator.

(** C5: with page 1 pointing to page 500 and page 500 the first to report
    [nextPage = 0], each page holding an item, the claim has the paginator
    fetch both pages and return their items. The guard of line 178 compares
    the page NUMBER with 100, so the run ends after the first request with
    the items of page 1 only: page 500 is never asked for. *)
Theorem cursor_jump_ends_run :
  (exists d, serves jump_server 0 (JNum 1) d /\
             page_value d [JStr "a"] (Some (JNum 500))) /\
  (exists d, serves jump_server 1 (JNum 500) d /\
             final_page d [JStr "b"]) /\
  get_all_consensus_data jump_server 1 <> None /\
  forall fuel o,
    get_all_consensus_data jump_server fuel = Some o ->
    requested o = [JNum 1] /\ returned o = Some [JStr "a"].
Proof.
  assert (R : get_all_consensus_data jump_server 1
              = Some {| returned := Some [JStr "a"]; requested := [JNum 1] |})
    by reflexivity.
  split; [|split; [|split]].
  - eexists. split; [reflexivity|]. do 2 eexists. repeat split; reflexivity.
  - eexists. split; [reflexivity|]. right; right.
    do 2 eexists. repeat split; reflexivity.
  - rewrite R. discriminate.
  - intros fuel o H. rewrite (get_all_deterministic _ _ _ _ _ H R).
    split; reflexivity.
Qed.

End PageLimit.

(** ** The frame of [process_data] *)

Module FrameFacts.
Import DataProcessor Tables Shapes Pandas Frames Flattener.

Lemma processed_records_app a b rows_a rows_b :
  processed_records a = Ret rows_a ->
  processed_records b = Ret rows_b ->
  processed_records (a ++ b) = Ret (rows_a ++ rows_b).
Proof.
  revert rows_a. induction a as [|record a IH]; intros rows_a Ha Hb; simpl in *.
  - injection Ha as <-. exact Hb.
  - destruct (expand_record record) as [rs|]; [|discriminate Ha].
    cbn [bind] in *.
    destruct (processed_records a) as [more|]; [|discriminate Ha].
    cbn [bind] in Ha. injection Ha as <-.
    rewrite (IH more eq_refl Hb). cbn [bind]. now rewrite app_assoc.
Qed.

Lemma expand_record_keyed record rows :
  expand_record record = Ret rows ->
  Forall (fun r => map fst r = row_keys) rows.
Proof.
  intros E. unfold expand_record in E.
  destruct record as [| | | | |fields]; try discriminate E.
  rewrite !py_get_obj in E. cbn [bind] in E.
  destruct (field_or "externalOpportunity" (JObj []) fields) as [| | | | |o];
    try discriminate E.
  rewrite !py_get_obj in E. cbn [bind] in E.
  destruct (truthy _).
  - destruct (py_iter _) as [ids|]; [|discriminate E].
    cbn [bind] in E. injection E as <-.
    generalize 0. induction ids as [|x ids IH]; intros i; simpl; constructor; auto.
    destruct (Nat.eqb i 0); reflexivity.
  - injection E as <-. constructor; [reflexivity|constructor].
Qed.

Lemma processed_records_keyed data rows :
  processed_records data = Ret rows ->
  Forall (fun r => map fst r = row_keys) rows.
Proof.
  revert rows. induction data as [|record data IH]; intros rows H; simpl in H.
  - injection H as <-. constructor.
  - destruct (expand_record record) as [rs|] eqn:E; [|discriminate H].
    cbn [bind] in H.
    destruct (processed_records data) as [more|]; [|discriminate H].
    cbn [bind] in H. injection H as <-.
    apply Forall_app. split; [now apply expand_record_keyed in E|now apply IH].
Qed.

(** The columns of the frame are the ten keys. *)
Lemma union_keys_keyed rows :
  rows <> [] -> Forall (fun r => map fst r = row_keys) rows ->
  union_keys rows = row_keys.
Proof.
  intros Hne Hk. unfold union_keys.
  destruct rows as [|r rows]; [congruence|].
  inversion Hk as [|? ? Hr Hrest]; subst. cbn [fold_left].
  assert (E0 : add_keys [] r = row_keys) by (unfold add_keys; now rewrite Hr).
  rewrite E0. clear Hk Hr E0 Hne.
  induction Hrest as [|r' rows' Hr' _ IH]; [reflexivity|].
  cbn [fold_left].
  assert (E : add_keys row_keys r' = row_keys) by (unfold add_keys; now rewrite Hr').
  now rewrite E.
Qed.

Section Frame.

Variable lib : numerics.

Lemma isna_make_cell k v : isna lib (make_cell lib k v) = raw_na v.
Proof.
  destruct k, v as [[| | | | |]|]; reflexivity.
Qed.

Lemma blank_built (K : string -> kind) r :
  forallb (isna lib) (map (fun c => make_cell lib (K c) (dict_get c r)) row_keys)
  = blank r.
Proof.
  unfold blank. induction row_keys as [|c l IH]; simpl; [reflexivity|].
  now rewrite isna_make_cell, IH.
Qed.

Lemma filter_map_comm {A B} (f : A -> B) (p : B -> bool) (l : list A) :
  filter p (map f l) = map f (filter (fun x => p (f x)) l).
Proof.
  induction l as [|x l IH]; simpl; [reflexivity|].
  destruct (p (f x)); simpl; now rewrite IH.
Qed.

(** The frame that [process_data] returns for rows with the ten keys: one
    row for every row that is not entirely null, in order. *)
Lemma clean_frame rows :
  rows <> [] -> Forall (fun r => map fst r = row_keys) rows ->
  exists all_int,
    _clean_consensus_data lib (pd_DataFrame lib rows)
    = {| columns := row_keys;
         values := map (finished_row lib (kinds rows) all_int) (kept rows) |}.
Proof.
  intros Hne Hk.
  unfold _clean_consensus_data, pd_DataFrame.
  rewrite (union_keys_keyed rows Hne Hk).
  unfold to_numeric_column. cbn [columns values map_cells dropna_all].
  change (Tables.index_of "viewTime" row_keys) with (Some 3).
  eexists. f_equal.
  rewrite filter_map_comm, !map_map.
  match goal with
  | |- map _ (filter ?p rows) = _ => replace (filter p rows) with (kept rows)
  end.
  - apply map_ext. intros r. unfold finished_row, clean_cell.
    rewrite !map_map. reflexivity.
  - unfold kept. apply filter_ext. intros r. f_equal. symmetry.
    apply (blank_built (kinds rows)).
Qed.

Lemma process_data_frame data rows :
  data <> [] -> processed_records data = Ret rows ->
  process_data lib data = _clean_consensus_data lib (pd_DataFrame lib rows).
Proof.
  intros Hne E. unfold process_data, DataProcessor.process_data.
  destruct data; [congruence|]. now rewrite E.
Qed.

Lemma expand_record_nonempty record rows :
  expand_record record = Ret rows -> rows <> [].
Proof.
  intros E. unfold expand_record in E.
  destruct record as [| | | | |fields]; try discriminate E.
  rewrite !py_get_obj in E. cbn [bind] in E.
  destruct (field_or "externalOpportunity" (JObj []) fields) as [| | | | |o];
    try discriminate E.
  rewrite !py_get_obj in E. cbn [bind] in E.
  destruct (field_or "demoUuids" (JArr []) fields) as [|b|z|s|l|l] eqn:F;
    cbn [truthy] in E.
  - injection E as <-. discriminate.
  - destruct b; [discriminate E|]. injection E as <-. discriminate.
  - destruct (negb (z =? 0)%Z); [discriminate E|]. injection E as <-. discriminate.
  - destruct s as [|a s]; cbn in E; injection E as <-; discriminate.
  - destruct l as [|x l]; cbn in E; injection E as <-; discriminate.
  - destruct l as [|x l]; cbn in E; injection E as <-; discriminate.
Qed.

(** The number of rows of the frame. *)
Lemma process_data_length data rows :
  processed_records data = Ret rows ->
  List.length (values (process_data lib data)) = List.length (kept rows).
Proof.
  intros E. destruct data as [|record data].
  - simpl in E. injection E as <-. reflexivity.
  - rewrite (process_data_frame _ rows) by (auto; discriminate).
    assert (Hne : rows <> []).
    { simpl in E. destruct (expand_record record) as [rs|] eqn:Er; [|discriminate E].
      cbn [bind] in E. destruct (processed_records data); [|discriminate E].
      cbn [bind] in E. injection E as <-.
      apply expand_record_nonempty in Er. destruct rs; [congruence|discriminate]. }
    destruct (clean_frame rows Hne (processed_records_keyed _ _ E)) as [b ->].
    cbn [values]. now rewrite length_map.
Qed.

(** Where the rows of one record sit in the frame of a batch. *)
Lemma record_in_frame pre post record rows_pre rows_post rows_rec :
  processed_records pre = Ret rows_pre ->
  processed_records post = Ret rows_post ->
  expand_record record = Ret rows_rec ->
  exists all_int before after,
    columns (process_data lib (pre ++ record :: post)) = row_keys /\
    values (process_data lib (pre ++ record :: post))
    = before
      ++ map (finished_row lib (kinds (rows_pre ++ rows_rec ++ rows_post)) all_int)
           (kept rows_rec)
      ++ after /\
    List.length before = List.length (values (process_data lib pre)) /\
    List.length after = List.length (values (process_data lib post)).
Proof.
  intros Hpre Hpost Hrec.
  assert (Hcons : processed_records (record :: post) = Ret (rows_rec ++ rows_post))
    by (simpl; now rewrite Hrec, Hpost).
  pose proof (processed_records_app _ _ _ _ Hpre Hcons) as Hall.
  rewrite (process_data_frame _ _ (fun E => app_cons_not_nil _ _ _ (eq_sym E)) Hall).
  destruct (clean_frame (rows_pre ++ rows_rec ++ rows_post)) as [b ->].
  - apply expand_record_nonempty in Hrec. intros E.
    apply app_eq_nil in E. destruct E as [_ E].
    apply app_eq_nil in E. tauto.
  - exact (processed_records_keyed _ _ Hall).
  - exists b. unfold kept. rewrite !filter_app, !map_app.
    do 2 eexists. split; [reflexivity|]. split; [reflexivity|].
    rewrite !length_map, !(process_data_length _ _ Hpre), !(process_data_length _ _ Hpost).
    split; reflexivity.
Qed.

(** The cells of a finished row. *)
Lemma finished_cell K all_int r c :
  In c row_keys -> c <> "viewTime" ->
  cell_at row_keys (finished_row lib K all_int r) c
  = Some (clean_cell (make_cell lib (K c) (dict_get c r))).
Proof.
  intros Hin Hne. simpl in Hin.
  repeat (destruct Hin as [<-|Hin]; [try reflexivity; congruence|]).
  destruct Hin.
Qed.

Lemma finished_view_time K all_int r :
  cell_at row_keys (finished_row lib K all_int r) "viewTime"
  = Some (to_numeric_cell lib all_int
            (clean_cell (make_cell lib (K "viewTime") (dict_get "viewTime" r)))).
Proof. reflexivity. Qed.

Lemma clean_cell_string K s :
  @clean_cell lib (make_cell lib K (Some (JStr s))) = Obj (JStr (clean_string s)).
Proof.
  assert (E : make_cell lib K (Some (JStr s)) = Obj (JStr s)) by now destruct K.
  rewrite E. unfold clean_cell, clean_string. cbn [replace_null].
  destruct (String.eqb s "null" || String.eqb s "None").
  - reflexivity.
  - cbn [astype_str_strip py_str replace_nan].
    destruct (String.eqb (strip s) "nan"); reflexivity.
Qed.

Lemma clean_cell_null K :
  K <> KFloat ->
  @clean_cell lib (make_cell lib K (Some JNull)) = Obj (JStr "").
Proof. destruct K; intros H; try reflexivity. congruence. Qed.

(** A column that holds a string has dtype [object]. *)
Lemma infer_string vs s : In (Some (JStr s)) vs -> infer vs = KObject.
Proof.
  intros Hin. unfold infer.
  assert (H1 : forallb is_int vs = false).
  { apply not_true_is_false. intros H. rewrite forallb_forall in H.
    now apply H in Hin. }
  assert (H2 : forallb is_bool vs = false).
  { apply not_true_is_false. intros H. rewrite forallb_forall in H.
    now apply H in Hin. }
  assert (H3 : forallb (fun v => is_int v || raw_na v) vs = false).
  { apply not_true_is_false. intros H. rewrite forallb_forall in H.
    now apply H in Hin. }
  now rewrite H1, H2, H3.
Qed.

Lemma kinds_string rows r c s :
  In r rows -> dict_get c r = Some (JStr s) -> kinds rows c = KObject.
Proof.
  intros Hin Hc. unfold kinds. apply (infer_string _ s).
  rewrite <- Hc. now apply in_map.
Qed.

Lemma not_blank r c s :
  In c row_keys -> dict_get c r = Some (JStr s) -> blank r = false.
Proof.
  intros Hin Hc. unfold blank. apply not_true_is_false. intros H.
  rewrite forallb_forall in H. apply H in Hin. now rewrite Hc in Hin.
Qed.

End Frame.

End FrameFacts.

(** ** The rows of one record in the frame *)

Module FlatRows.
Import DataProcessor Tables Shapes Pandas Frames Flattener FrameFacts.

Lemma enumerate_rows_kept info ids :
  forall i,
    kept (enumerate_rows info i (map JStr ids)) = enumerate_rows info i (map JStr ids).
Proof.
  induction ids as [|id ids IH]; intros i; [reflexivity|].
  cbn [map enumerate_rows]. unfold kept in *. cbn [filter].
  rewrite (not_blank _ "demoUuids" id).
  - cbn [negb]. now rewrite IH.
  - simpl. tauto.
  - destruct (Nat.eqb i 0); apply dict_get_set_same.
Qed.

Lemma nth_error_mapped {A B} (f : A -> B) l i y :
  nth_error (map f l) i = Some y ->
  exists x, nth_error l i = Some x /\ y = f x.
Proof.
  revert i. induction l as [|a l IH]; intros [|i] H; simpl in H; try discriminate.
  - injection H as <-. now exists a.
  - now apply IH.
Qed.

(** C3 (as stated, refuted): a record with two session ids and no
    [senddemoUuid], and a record whose [senddemoUuid] is the word null:
    in both frames the first row has the empty string under
    [senddemoUuid]. *)
Lemma first_row_empty_in_frame :
  (exists f1 f2,
     values (process_data integers
               [ JObj [ ("demoUuids", JArr [ JStr "d1"; JStr "d2" ]) ] ])
     = [f1; f2] /\
     cell_at row_keys f1 "senddemoUuid" = Some (Obj (JStr "")) /\
     cell_at row_keys f2 "senddemoUuid" = Some (Obj (JStr ""))) /\
  (exists f1,
     values (process_data integers
               [ JObj [ ("senddemoUuid", JStr "null");
                        ("demoUuids", JArr [ JStr "d1" ]) ] ])
     = [f1] /\
     cell_at row_keys f1 "senddemoUuid" = Some (Obj (JStr ""))).
Proof.
  split.
  - do 2 eexists. split; [reflexivity|]. split; reflexivity.
  - eexists. split; reflexivity.
Qed.

(** C3 (as amended): in a batch none of whose records raises, a record
    whose [demoUuids] is a non-empty list of N string ids and whose
    [senddemoUuid] is a string or absent gives exactly N rows of the frame
    that [process_data] returns, between the rows of the records before it
    and those of the records after it and in the order of the ids. Row i
    holds the i-th id as the cleaning pass leaves it (the words null and
    None become empty, whitespace around goes, nan becomes empty). The first
    row holds the record's [senddemoUuid] as cleaned (empty when absent),
    every row with index > 0 the empty string; so [senddemoUuid] is
    non-empty on exactly the first row whenever the record's cleaned
    [senddemoUuid] is not empty. *)
Theorem sessions_become_rows lib pre post fields ids send :
  (exists rows, processed_records pre = Ret rows) ->
  (exists rows, processed_records post = Ret rows) ->
  opportunity_ok fields ->
  dict_get "demoUuids" fields = Some (JArr (map JStr ids)) -> ids <> [] ->
  field_or "senddemoUuid" (JStr "") fields = JStr send ->
  exists before mine after,
    values (process_data lib (pre ++ JObj fields :: post)) = before ++ mine ++ after /\
    List.length before = List.length (values (process_data lib pre)) /\
    List.length after = List.length (values (process_data lib post)) /\
    List.length mine = List.length ids /\
    map (fun f => cell_at row_keys f "demoUuids") mine
    = map (fun id => Some (Obj (JStr (clean_string id)))) ids /\
    forall i f,
      nth_error mine i = Some f ->
      cell_at row_keys f "senddemoUuid"
      = Some (Obj (JStr (if Nat.eqb i 0 then clean_string send else ""))).
Proof.
  intros [rows_pre Hpre] [rows_post Hpost] Hopp Hids Hne Hsend.
  destruct (expand_record_obj fields Hopp) as (o & _ & E).
  assert (F : field_or "demoUuids" (JArr []) fields = JArr (map JStr ids))
    by (unfold field_or; now rewrite Hids).
  rewrite F in E.
  assert (T : truthy (JArr (map JStr ids)) = true)
    by (destruct ids; [congruence|reflexivity]).
  rewrite T in E. cbn [py_iter bind] in E.
  destruct (record_in_frame lib pre post _ _ _ _ Hpre Hpost E)
    as (b & before & after & _ & Hv & Hb & Ha).
  rewrite enumerate_rows_kept in Hv.
  set (K := kinds _) in Hv.
  exists before, (map (finished_row lib K b)
                    (enumerate_rows (base_info fields o) 0 (map JStr ids))), after.
  split; [exact Hv|]. split; [exact Hb|]. split; [exact Ha|]. split; [|split].
  - now rewrite length_map, enumerate_rows_length, length_map.
  - rewrite map_map.
    rewrite (map_ext _ (fun r => Some (clean_cell
                                         (make_cell lib (K "demoUuids")
                                            (dict_get "demoUuids" r))))).
    2:{ intros r. apply finished_cell; [simpl; tauto|discriminate]. }
    rewrite <- (map_map (dict_get "demoUuids")
                  (fun v => Some (clean_cell (make_cell lib (K "demoUuids") v)))).
    rewrite enumerate_rows_ids, !map_map.
    apply map_ext. intros id. now rewrite clean_cell_string.
  - intros i f Hf. apply nth_error_mapped in Hf. destruct Hf as (r & Hr & ->).
    rewrite finished_cell by (simpl; tauto || discriminate).
    apply enumerate_rows_senddemoUuid in Hr. rewrite Hr. cbn [Nat.add].
    destruct (Nat.eqb i 0).
    + cbn [base_info dict_get String.eqb Ascii.eqb Bool.eqb]. rewrite Hsend.
      now rewrite clean_cell_string.
    + now rewrite clean_cell_string.
Qed.

Lemma sessions_become_rows_witness :
  exists before mine after,
    values (process_data integers
              ([ JObj [ ("demoUuid", JStr "d0") ] ]
               ++ JObj scenario_record :: [ JObj [ ("demoUuid", JStr "d9") ] ]))
    = before ++ mine ++ after /\
    List.length before
    = List.length (values (process_data integers [ JObj [ ("demoUuid", JStr "d0") ] ])) /\
    List.length after
    = List.length (values (process_data integers [ JObj [ ("demoUuid", JStr "d9") ] ])) /\
    List.length mine = List.length [ "d1"; "d2" ] /\
    map (fun f => cell_at row_keys f "demoUuids") mine
    = map (fun id => Some (@Obj integers (JStr (clean_string id)))) [ "d1"; "d2" ] /\
    forall i f,
      nth_error mine i = Some f ->
      cell_at row_keys f "senddemoUuid"
      = Some (Obj (JStr (if Nat.eqb i 0 then clean_string "A1" else ""))).
Proof.
  refine (sessions_become_rows integers [ JObj [ ("demoUuid", JStr "d0") ] ]
            [ JObj [ ("demoUuid", JStr "d9") ] ] scenario_record
            [ "d1"; "d2" ] "A1" _ _ _ _ _ _).
  - eexists. reflexivity.
  - eexists. reflexivity.
  - right. eexists. reflexivity.
  - reflexivity.
  - discriminate.
  - reflexivity.
Defined.

(** C4 (as stated, refuted): a record whose fields are all null (it has no
    [demoUuids]) leaves no row in the frame, and a record whose [demoUuid]
    is the word null gets the empty string as its session id. *)
Lemma null_record_leaves_no_row :
  raw_record null_record /\
  dict_get "demoUuids" null_record = None /\
  values (process_data integers [ JObj null_record ]) = [] /\
  exists f,
    values (process_data integers [ JObj [ ("demoUuid", JStr "null") ] ]) = [f] /\
    cell_at row_keys f "demoUuids" = Some (Obj (JStr "")).
Proof.
  split; [split; [right; eexists; reflexivity|left; reflexivity]|].
  split; [reflexivity|]. split; [reflexivity|].
  eexists. split; reflexivity.
Qed.

(** C4 (as amended): in a batch none of whose records raises, a record
    whose [demoUuids] is empty or absent and whose fallback [demoUuid] is a
    string (possibly empty) or absent gives exactly one row of the frame
    that [process_data] returns, between the rows of the records before it
    and those of the records after it; its session id is the [demoUuid] as
    the cleaning pass leaves it (the words null and None become empty,
    whitespace around goes, nan becomes empty). Every RawRecord gives one
    row of the frame for each of its rows that holds a value other than
    null, hence at least one unless all its values are null: such a row is
    dropped. *)
Theorem fallback_row_in_frame lib pre post fields :
  (exists rows, processed_records pre = Ret rows) ->
  (exists rows, processed_records post = Ret rows) ->
  raw_record fields ->
  (forall d,
     dict_get "demoUuids" fields = None \/
     dict_get "demoUuids" fields = Some (JArr []) ->
     field_or "demoUuid" (JStr "") fields = JStr d ->
     exists before f after,
       values (process_data lib (pre ++ JObj fields :: post))
       = before ++ [f] ++ after /\
       List.length before = List.length (values (process_data lib pre)) /\
       List.length after = List.length (values (process_data lib post)) /\
       cell_at row_keys f "demoUuids" = Some (Obj (JStr (clean_string d)))) /\
  exists rows before mine after,
    expand_record (JObj fields) = Ret rows /\
    values (process_data lib (pre ++ JObj fields :: post)) = before ++ mine ++ after /\
    List.length before = List.length (values (process_data lib pre)) /\
    List.length after = List.length (values (process_data lib post)) /\
    List.length mine = List.length (kept rows) /\
    ((exists r, In r rows /\ blank r = false) -> 1 <= List.length mine).
Proof.
  intros [rows_pre Hpre] [rows_post Hpost] Hraw.
  destruct (Flattener.fallback_row fields (proj1 Hraw)) as [Hone Hsome].
  split.
  - intros d Hno Hd.
    destruct (Hone Hno) as (r & Er & Hr). rewrite Hd in Hr.
    destruct (record_in_frame lib pre post _ _ _ _ Hpre Hpost Er)
      as (b & before & after & _ & Hv & Hb & Ha).
    assert (Hk : kept [r] = [r]).
    { unfold kept. cbn [filter].
      rewrite (not_blank r "demoUuids" d); [reflexivity|simpl; tauto|exact Hr]. }
    rewrite Hk in Hv. cbn [map] in Hv.
    do 3 eexists. split; [exact Hv|]. split; [exact Hb|]. split; [exact Ha|].
    rewrite finished_cell by (simpl; tauto || discriminate).
    now rewrite Hr, clean_cell_string.
  - destruct (Hsome Hraw) as (rows & Er & _).
    destruct (record_in_frame lib pre post _ _ _ _ Hpre Hpost Er)
      as (b & before & after & _ & Hv & Hb & Ha).
    exists rows. do 3 eexists. split; [exact Er|]. split; [exact Hv|].
    split; [exact Hb|]. split; [exact Ha|]. split; [apply length_map|].
    intros (r & Hin & Hr). rewrite length_map.
    assert (Hk : In r (kept rows))
      by (unfold kept; apply filter_In; split; [exact Hin|now rewrite Hr]).
    destruct (kept rows); [destruct Hk|simpl; lia].
Qed.

Lemma fallback_row_in_frame_witness :
  exists before f after,
    values (process_data integers
              ([ JObj scenario_record ]
               ++ JObj [ ("senddemoUuid", JStr "A2"); ("demoUuid", JStr " d0 ") ]
                  :: []))
    = before ++ [f] ++ after /\
    List.length before
    = List.length (values (process_data integers [ JObj scenario_record ])) /\
    List.length after = List.length (values (process_data integers [])) /\
    cell_at row_keys f "demoUuids" = Some (Obj (JStr (clean_string " d0 "))).
Proof.
  refine (proj1 (fallback_row_in_frame integers [ JObj scenario_record ] []
                   [ ("senddemoUuid", JStr "A2"); ("demoUuid", JStr " d0 ") ]
                   _ _ _) " d0 " _ _).
  - eexists. reflexivity.
  - eexists. reflexivity.
  - split; left; reflexivity.
  - left; reflexivity.
  - reflexivity.
Defined.

End FlatRows.

(** ** The cleaning pass *)

Module Cleaning.
Import DataProcessor Tables Shapes Pandas Frames Flattener FrameFacts.

Lemma uint_chars d :
  all_chars in_number (DecimalString.NilEmpty.string_of_uint d) = true.
Proof. induction d; simpl; auto. Qed.

Lemma decimal_chars z : all_chars in_number (decimal z) = true.
Proof.
  unfold decimal, DecimalString.NilZero.string_of_int,
    DecimalString.NilZero.string_of_uint.
  destruct (Z.to_int z) as [d|d]; destruct d; simpl; rewrite ?uint_chars; reflexivity.
Qed.

Lemma in_number_no_space a : in_number a = true -> is_space a = false.
Proof.
  destruct a as [[] [] [] [] [] [] [] []]; intros H; try reflexivity; discriminate H.
Qed.

Lemma rstrip_plain s : all_chars in_number s = true -> rstrip_space s = s.
Proof.
  induction s as [|a s IH]; intros H; [reflexivity|].
  simpl in H. apply andb_true_iff in H. destruct H as [Ha Hs].
  simpl. rewrite (IH Hs). destruct s; [|reflexivity].
  now rewrite (in_number_no_space a Ha).
Qed.

Lemma strip_plain s : all_chars in_number s = true -> strip s = s.
Proof.
  intros H. unfold strip.
  assert (E : lstrip_space s = s).
  { destruct s as [|a s]; [reflexivity|]. simpl in *.
    apply andb_true_iff in H. now rewrite (in_number_no_space a (proj1 H)). }
  rewrite E. now apply rstrip_plain.
Qed.

Lemma plain_not_nan s : all_chars in_number s = true -> String.eqb s "nan" = false.
Proof.
  destruct s as [|a s]; intros H; [reflexivity|].
  simpl in H. apply andb_true_iff in H. destruct H as [Ha _].
  simpl. destruct (Ascii.eqb_spec a "n") as [->|]; [discriminate Ha|reflexivity].
Qed.

(** The decimal parser reads back what [str] writes for an integer. *)
Lemma parse_decimal_decimal z : parse_decimal (decimal z) = Some (IntVal z).
Proof.
  unfold parse_decimal, decimal.
  assert (H : exists d,
             DecimalString.NilZero.int_of_string
               (DecimalString.NilZero.string_of_int (Z.to_int z)) = Some d /\
             Z.of_int d = Z.of_int (Z.to_int z)).
  { destruct (Z.to_int z) as [u|u]; destruct u;
      try (eexists; split; [apply DecimalString.NilZero.isi; discriminate|reflexivity]);
      eexists; split; reflexivity. }
  destruct H as (d & -> & E). now rewrite E, DecimalZ.of_to.
Qed.

Section Pass.

Variable lib : numerics.
Hypothesis parse_empty : parse_number lib "" = None.
Hypothesis parse_int :
  forall z, int64 z -> parse_number lib (decimal z) = Some (IntVal z).

Lemma dict_get_in k (r : row) v : dict_get k r = Some v -> In (k, v) r.
Proof.
  induction r as [|[k' v'] r IH]; simpl; [discriminate|].
  destruct (String.eqb_spec k k') as [->|].
  - intros E. injection E as ->. now left.
  - intros E. right. now apply IH.
Qed.

Lemma in_dict_get k (r : row) v :
  NoDup (map fst r) -> In (k, v) r -> dict_get k r = Some v.
Proof.
  induction r as [|[k' v'] r IH]; intros Hnd Hin; [destruct Hin|].
  inversion Hnd as [|? ? Hk Hrest]; subst. simpl.
  destruct Hin as [E|Hin].
  - injection E as -> ->. now rewrite String.eqb_refl.
  - destruct (String.eqb_spec k k') as [->|]; [|now apply IH].
    exfalso. apply Hk. now apply (in_map fst) in Hin.
Qed.

Lemma row_keys_nodup : NoDup row_keys.
Proof. repeat constructor; simpl; intuition discriminate. Qed.

Lemma key_has_value k (r : row) :
  In k (map fst r) -> exists v, dict_get k r = Some v.
Proof.
  induction r as [|[k' v'] r IH]; intros Hin; [destruct Hin|]. simpl.
  destruct (String.eqb_spec k k') as [->|Hne]; [eauto|].
  destruct Hin as [E|Hin]; [simpl in E; congruence|auto].
Qed.

(** A column of strings and nulls is not a float64 column. *)
Lemma typed_column_kind rows k :
  Forall flat_row rows -> In k row_keys -> k <> "viewTime" ->
  kinds rows k <> KFloat.
Proof.
  intros Hrows Hk Hne. unfold kinds, infer.
  destruct (forallb is_int _); [discriminate|].
  destruct (forallb is_bool _); [discriminate|].
  destruct (existsb _ _) eqn:Ex; [|rewrite andb_false_r; discriminate].
  exfalso. apply existsb_exists in Ex. destruct Ex as (x & Hx & Hint).
  apply in_map_iff in Hx. destruct Hx as (r & <- & Hr).
  rewrite Forall_forall in Hrows. destruct (Hrows r Hr) as [Hkeys Hty].
  destruct (key_has_value k r) as [v Hv]; [now rewrite Hkeys|].
  rewrite Hv in Hint. apply dict_get_in in Hv.
  destruct (Hty k v Hv) as [-> |[[s ->]|[E _]]]; [discriminate..|congruence].
Qed.

Lemma clean_cell_int K z :
  K = KBool \/ K = KObject ->
  @clean_cell lib (make_cell lib K (Some (JNum z))) = Obj (JStr (decimal z)).
Proof.
  intros [-> | ->]; unfold clean_cell; cbn [make_cell replace_null astype_str_strip py_str];
    rewrite (strip_plain _ (decimal_chars z)); cbn [replace_nan];
    now rewrite (plain_not_nan _ (decimal_chars z)).
Qed.

Lemma cleaned_row rows all_int r :
  Forall flat_row rows -> In r rows ->
  cleaned lib r (finished_row lib (kinds rows) all_int r).
Proof.
  intros Hrows Hr. pose proof Hrows as Hall.
  rewrite Forall_forall in Hall. destruct (Hall r Hr) as [Hkeys Hty].
  assert (Hnd : NoDup (map fst r)) by (rewrite Hkeys; apply row_keys_nodup).
  split.
  - intros k v Hin Hne.
    assert (Hk : In k row_keys) by (rewrite <- Hkeys; now apply (in_map fst) in Hin).
    rewrite finished_cell by assumption.
    rewrite (in_dict_get k r v Hnd Hin).
    destruct (Hty k v Hin) as [-> |[[s ->]|[E _]]]; [| |congruence].
    + rewrite clean_cell_null; [reflexivity|now apply typed_column_kind].
    + now rewrite clean_cell_string.
  - intros v Hv. rewrite finished_view_time, Hv. cbn [option_map]. do 2 f_equal.
    apply dict_get_in in Hv.
    destruct (Hty _ v Hv) as [-> |[[s ->]|[_ (z & -> & Hz)]]].
    + destruct (kinds rows "viewTime"); cbn; try reflexivity;
        now rewrite parse_empty.
    + rewrite clean_cell_string. unfold to_numeric_cell. cbn [is_object coerce].
      cbn [expected_view_time].
      destruct (parse_number lib (clean_string s)) as [[n|x]|]; cbn;
        try reflexivity. now destruct all_int.
    + destruct (kinds rows "viewTime") eqn:EK; try reflexivity.
      * rewrite clean_cell_int by tauto. unfold to_numeric_cell.
        cbn [is_object coerce]. rewrite (parse_int z Hz). now destruct all_int.
      * rewrite clean_cell_int by tauto. unfold to_numeric_cell.
        cbn [is_object coerce]. rewrite (parse_int z Hz). now destruct all_int.
Qed.

End Pass.

(** C9 (as stated, refuted): a field that holds the text nan is not left
    as its trimmed text: the frame holds the empty string for it. In the
    same row a [viewTime] that holds the word null does not end as the empty
    string either: it is made empty and then coerced, and the frame holds
    NaN for it. *)
Lemma nan_text_becomes_empty :
  flat_row nan_row /\
  dict_get "organization" nan_row = Some (JStr "nan") /\
  strip "nan" = "nan" /\
  dict_get "viewTime" nan_row = Some (JStr "null") /\
  exists f,
    values (_clean_consensus_data integers (pd_DataFrame integers [nan_row]))
    = [f] /\
    cell_at row_keys f "organization" = Some (Obj (JStr "")) /\
    cell_at row_keys f "viewTime" = Some (F64 None).
Proof.
  split; [|repeat split].
  - split; [reflexivity|]. intros k v Hin. simpl in Hin.
    repeat (destruct Hin as [E|Hin]; [injection E as <- <-; eauto|]).
    destruct Hin.
  - eexists. repeat split.
Qed.

(** Rows are dropped before the null words are made empty, and only when
    every value is [None]: a row of empty strings stays, and so does a row
    of null words. *)
Lemma empty_strings_row_is_kept :
  List.length
    (values (_clean_consensus_data integers (pd_DataFrame integers [empty_row])))
  = 1 /\
  List.length
    (values (_clean_consensus_data integers
               (pd_DataFrame integers
                  [map (fun k => (k, JStr "null")) row_keys])))
  = 1.
Proof. split; reflexivity. Qed.

(** C9 (as amended): for every flattened row set (rows with the ten keys,
    [viewTime] an integer, a string or null, every other value a string or
    null), the frame after the post-processing step holds one row for every
    row that has a value other than null, in the same order, the rows that
    are entirely null being dropped. Under every key other than [viewTime]
    the cell is a string: empty for null and for the exact words null and
    None, otherwise the value without the whitespace around it, and empty if
    what is left is nan. Under [viewTime] the cell is numeric: an integer
    stays, a string is read as a number after the same cleaning, and null,
    the words null and None and text that does not parse give NaN, not zero
    and not the empty string. *)
Theorem cleaning_pass lib rows :
  parse_number lib "" = None ->
  (forall z, int64 z -> parse_number lib (decimal z) = Some (IntVal z)) ->
  Forall flat_row rows ->
  Forall2 (cleaned lib) (kept rows)
    (values (_clean_consensus_data lib (pd_DataFrame lib rows))).
Proof.
  intros P0 Pz Hrows.
  destruct rows as [|r0 rows]; [constructor|].
  destruct (clean_frame lib (r0 :: rows)) as [b ->]; [discriminate| |].
  - eapply Forall_impl; [|exact Hrows]. intros r H. exact (proj1 H).
  - cbn [values].
    assert (G : forall l, (forall r, In r l -> In r (r0 :: rows)) ->
                Forall2 (cleaned lib) l
                  (map (finished_row lib (kinds (r0 :: rows)) b) l)).
    { induction l as [|r l IH]; intros Hl; constructor.
      - apply cleaned_row; auto. apply Hl. now left.
      - apply IH. intros x Hx. apply Hl. now right. }
    apply G. intros r Hr. unfold kept in Hr. apply filter_In in Hr. tauto.
Qed.

Lemma cleaning_pass_witness :
  Forall2 (cleaned integers) (kept sample_rows)
    (values (_clean_consensus_data integers (pd_DataFrame integers sample_rows))).
Proof.
  refine (cleaning_pass integers sample_rows _ _ _).
  - reflexivity.
  - intros z _. exact (parse_decimal_decimal z).
  - repeat (constructor;
            [split; [reflexivity|];
             intros k v Hin; simpl in Hin;
             repeat (destruct Hin as [E|Hin];
                     [injection E as <- <-;
                      first [ now left | right; left; eexists; reflexivity
                            | right; right; split; [reflexivity|];
                              eexists; split; [reflexivity|unfold int64; lia] ]|]);
             destruct Hin|]).
    constructor.
Defined.

(** What that frame is, cell by cell. *)
Lemma sample_rows_cleaned :
  values (_clean_consensus_data integers (pd_DataFrame integers sample_rows))
  = [ [ Obj (JStr "A1"); Obj (JStr "Board"); Obj (JStr "");
        @F64 integers (Some 42%Z);
        Obj (JStr "2025-01-01"); Obj (JStr "X"); Obj (JStr ""); Obj (JStr "");
        Obj (JStr ""); Obj (JStr "d1") ];
      [ Obj (JStr ""); Obj (JStr "Board"); Obj (JStr "Acme"); F64 None;
        Obj (JStr "2025-01-01"); Obj (JStr "X"); Obj (JStr ""); Obj (JStr "");
        Obj (JStr ""); Obj (JStr "d2") ] ].
Proof. reflexivity. Qed.

End Cleaning.
